(** * The refresh controller of the weather map

    A shallow embedding of the [WeatherMap] component (the file that
    declares [fetchWeatherData], [handleLocationSelect], [handleSearch] and
    [handleRefresh]): its React state and refs, the four handlers, and the
    continuations the handlers leave behind at every [await].

    The component is event driven.  A handler runs to its first [await],
    registers the rest of its body as a pending task and returns; the reply
    of the network wakes the task up later.  Between two such steps any
    other handler may run, so the model is a labelled transition system
    over a [World]: the component's state, the requests issued so far and
    the tasks that are still suspended. *)

From Stdlib Require Import ZArith List String Ascii Bool Lia Arith.
From Stdlib Require Import SpecFloat DecimalString.
Import ListNotations.
Local Open Scope string_scope.
Local Open Scope list_scope.

(** ** JavaScript numbers and the builtins the component calls *)

(** A JavaScript number is an IEEE 754 binary64 value. *)
Definition number : Type := spec_float.

(** [x === y] on numbers: [NaN] differs from everything, the two zeros are
    equal. *)
Definition strict_eq (x y : number) : bool := SFeqb x y.

(** The library functions the handlers call.  The controller is verified
    for every behaviour of these; [ecma] below implements them for the
    concrete runs. *)
Class Builtins : Type := {
  (** [x.toFixed(digits)] *)
  toFixed : number -> nat -> string;
  (** [Number.parseFloat(s)] *)
  parseFloat : string -> number;
  (** [encodeURIComponent(s)]; [None] when it throws a [URIError] *)
  encodeURIComponent : string -> option string
}.

(** ** Data model (the interfaces at the top of the component) *)

Module Location.
Record t : Type := mk {
  lat : number;
  lng : number;
  name : option string
}.
End Location.
Abbreviation Location := Location.t.

Record Measurements : Type := {
  temp : number;
  feels_like : number;
  humidity : number;
  pressure : number
}.

Module Condition.
Record t : Type := mk {
  id : number;
  main : string;
  description : string;
  icon : string
}.
End Condition.

Record Wind : Type := {
  speed : number;
  deg : number
}.

Module WeatherData.
Record t : Type := mk {
  main : Measurements;
  weather : list Condition.t;
  wind : Wind;
  name : string;
  sys_country : string
}.
End WeatherData.
Abbreviation WeatherData := WeatherData.t.

Module ForecastEntry.
Record t : Type := mk {
  dt : number;
  main : Measurements;
  weather : list Condition.t;
  wind : Wind;
  dt_txt : string
}.
End ForecastEntry.

Module ForecastData.
Record t : Type := mk {
  list : Datatypes.list ForecastEntry.t;
  city_name : string;
  city_country : string
}.
End ForecastData.
Abbreviation ForecastData := ForecastData.t.

Module Alert.
Record t : Type := mk {
  sender_name : string;
  event : string;
  start : number;
  end_ : number;
  description : string;
  tags : list string
}.
End Alert.
Abbreviation Alert := Alert.t.

(** The body of a One Call reply, as far as the component reads it: the
    [alerts] field, which the service leaves out when nothing is active. *)
Module OneCallData.
Record t : Type := mk {
  alerts : option (list Alert)
}.
End OneCallData.
Abbreviation OneCallData := OneCallData.t.

(** One element of the array the geocoder answers with. *)
Module Candidate.
Record t : Type := mk {
  lat : string;
  lon : string;
  display_name : string
}.
End Candidate.
Abbreviation Candidate := Candidate.t.

(** ** The component's state: [useState] cells and [useRef] cells *)

Record State : Type := mkState {
  selectedLocation : option Location;
  searchedLocation : option Location;
  weatherData : option WeatherData;
  forecastData : option ForecastData;
  alertsData : option (list Alert);
  loading : bool;
  error : option string;
  isSearching : bool;
  searchError : option string;
  lastUpdated : option Z;
  activeTab : string;
  dataFetchedRef : bool;
  locationKeyRef : option string;
  currentLocationRef : option Location
}.

(** The state of a freshly mounted component. *)
Definition initialState : State := {|
  selectedLocation := None;
  searchedLocation := None;
  weatherData := None;
  forecastData := None;
  alertsData := None;
  loading := false;
  error := None;
  isSearching := false;
  searchError := None;
  lastUpdated := None;
  activeTab := "current";
  dataFetchedRef := false;
  locationKeyRef := None;
  currentLocationRef := None
|}.

(** ** The world around the state *)

(** The four endpoints the component fetches from, each with what the
    component puts into the URL: coordinates, or the encoded query. *)
Inductive Request : Type :=
| GetCurrent (lat lon : number)
| GetForecast (lat lon : number)
| GetOneCall (lat lon : number)
| GetGeocode (q : string).

(** What the two awaits on a request ([await fetch(..)], then
    [await response.json()]) hand back to the suspended function.  The
    function does nothing between the two awaits except testing
    [response.ok], so the pair is one step of the model. *)
Inductive Response (A : Type) : Type :=
| NetworkError
| NotOk
| Malformed
| Json (body : A).
Arguments NetworkError {A}.
Arguments NotOk {A}.
Arguments Malformed {A}.
Arguments Json {A} body.

(** A suspended async function: the program point it waits at and the
    variables of its closure that the rest of its body reads.  [loading] is
    not a cell of the state here but the constant the render bound: the
    handlers of one render all see the [loading] of that render, however
    the state moves afterwards. *)
Inductive Task : Type :=
| AwaitCurrent (location : Location)
| AwaitForecast (location : Location) (currentData : WeatherData)
| AwaitOneCall (location : Location) (currentData : WeatherData)
| AwaitGeocode (loading : bool) (query : string).

Inductive LogLine : Type :=
| ConsoleWarn (msg : string)
| ConsoleError (msg : string).

Record World : Type := mkWorld {
  ui : State;
  requests : list Request;
  pending : list (nat * Task);
  console : list LogLine
}.

Definition initialWorld : World := {|
  ui := initialState;
  requests := [];
  pending := [];
  console := []
|}.

(** A handler (or the rest of one) is a transformation of the world;
    [a ;; b] runs [a], then [b]. *)
Definition Handler : Type := World -> World.

Definition seq (a b : Handler) : Handler := fun w => b (a w).
Notation "a ;; b" := (seq a b) (at level 61, right associativity).

Definition skip : Handler := fun w => w.

Definition modify (f : State -> State) : Handler := fun w =>
  {| ui := f (ui w); requests := requests w;
     pending := pending w; console := console w |}.

Definition log (l : LogLine) : Handler := fun w =>
  {| ui := ui w; requests := requests w;
     pending := pending w; console := console w ++ [l] |}.

(** [await fetch(r)] followed by the rest of the function, [k]: the request
    goes out, the task is parked under the request's number. *)
Definition fetch (r : Request) (k : Task) : Handler := fun w =>
  {| ui := ui w; requests := requests w ++ [r];
     pending := pending w ++ [(List.length (requests w), k)];
     console := console w |}.

(** *** State setters *)

Definition setSelectedLocation (f : option Location -> option Location)
    : Handler :=
  modify (fun s => {|
    selectedLocation := f (selectedLocation s);
    searchedLocation := searchedLocation s; weatherData := weatherData s;
    forecastData := forecastData s; alertsData := alertsData s;
    loading := loading s; error := error s; isSearching := isSearching s;
    searchError := searchError s; lastUpdated := lastUpdated s;
    activeTab := activeTab s; dataFetchedRef := dataFetchedRef s;
    locationKeyRef := locationKeyRef s;
    currentLocationRef := currentLocationRef s |}).

Definition setSearchedLocation (v : option Location) : Handler :=
  modify (fun s => {|
    selectedLocation := selectedLocation s;
    searchedLocation := v; weatherData := weatherData s;
    forecastData := forecastData s; alertsData := alertsData s;
    loading := loading s; error := error s; isSearching := isSearching s;
    searchError := searchError s; lastUpdated := lastUpdated s;
    activeTab := activeTab s; dataFetchedRef := dataFetchedRef s;
    locationKeyRef := locationKeyRef s;
    currentLocationRef := currentLocationRef s |}).

Definition setWeatherData (v : option WeatherData) : Handler :=
  modify (fun s => {|
    selectedLocation := selectedLocation s;
    searchedLocation := searchedLocation s; weatherData := v;
    forecastData := forecastData s; alertsData := alertsData s;
    loading := loading s; error := error s; isSearching := isSearching s;
    searchError := searchError s; lastUpdated := lastUpdated s;
    activeTab := activeTab s; dataFetchedRef := dataFetchedRef s;
    locationKeyRef := locationKeyRef s;
    currentLocationRef := currentLocationRef s |}).

Definition setForecastData (v : option ForecastData) : Handler :=
  modify (fun s => {|
    selectedLocation := selectedLocation s;
    searchedLocation := searchedLocation s; weatherData := weatherData s;
    forecastData := v; alertsData := alertsData s;
    loading := loading s; error := error s; isSearching := isSearching s;
    searchError := searchError s; lastUpdated := lastUpdated s;
    activeTab := activeTab s; dataFetchedRef := dataFetchedRef s;
    locationKeyRef := locationKeyRef s;
    currentLocationRef := currentLocationRef s |}).

Definition setAlertsData (v : option (list Alert)) : Handler :=
  modify (fun s => {|
    selectedLocation := selectedLocation s;
    searchedLocation := searchedLocation s; weatherData := weatherData s;
    forecastData := forecastData s; alertsData := v;
    loading := loading s; error := error s; isSearching := isSearching s;
    searchError := searchError s; lastUpdated := lastUpdated s;
    activeTab := activeTab s; dataFetchedRef := dataFetchedRef s;
    locationKeyRef := locationKeyRef s;
    currentLocationRef := currentLocationRef s |}).

Definition setLoading (v : bool) : Handler :=
  modify (fun s => {|
    selectedLocation := selectedLocation s;
    searchedLocation := searchedLocation s; weatherData := weatherData s;
    forecastData := forecastData s; alertsData := alertsData s;
    loading := v; error := error s; isSearching := isSearching s;
    searchError := searchError s; lastUpdated := lastUpdated s;
    activeTab := activeTab s; dataFetchedRef := dataFetchedRef s;
    locationKeyRef := locationKeyRef s;
    currentLocationRef := currentLocationRef s |}).

Definition setError (v : option string) : Handler :=
  modify (fun s => {|
    selectedLocation := selectedLocation s;
    searchedLocation := searchedLocation s; weatherData := weatherData s;
    forecastData := forecastData s; alertsData := alertsData s;
    loading := loading s; error := v; isSearching := isSearching s;
    searchError := searchError s; lastUpdated := lastUpdated s;
    activeTab := activeTab s; dataFetchedRef := dataFetchedRef s;
    locationKeyRef := locationKeyRef s;
    currentLocationRef := currentLocationRef s |}).

Definition setIsSearching (v : bool) : Handler :=
  modify (fun s => {|
    selectedLocation := selectedLocation s;
    searchedLocation := searchedLocation s; weatherData := weatherData s;
    forecastData := forecastData s; alertsData := alertsData s;
    loading := loading s; error := error s; isSearching := v;
    searchError := searchError s; lastUpdated := lastUpdated s;
    activeTab := activeTab s; dataFetchedRef := dataFetchedRef s;
    locationKeyRef := locationKeyRef s;
    currentLocationRef := currentLocationRef s |}).

Definition setSearchError (v : option string) : Handler :=
  modify (fun s => {|
    selectedLocation := selectedLocation s;
    searchedLocation := searchedLocation s; weatherData := weatherData s;
    forecastData := forecastData s; alertsData := alertsData s;
    loading := loading s; error := error s; isSearching := isSearching s;
    searchError := v; lastUpdated := lastUpdated s;
    activeTab := activeTab s; dataFetchedRef := dataFetchedRef s;
    locationKeyRef := locationKeyRef s;
    currentLocationRef := currentLocationRef s |}).

Definition setLastUpdated (v : option Z) : Handler :=
  modify (fun s => {|
    selectedLocation := selectedLocation s;
    searchedLocation := searchedLocation s; weatherData := weatherData s;
    forecastData := forecastData s; alertsData := alertsData s;
    loading := loading s; error := error s; isSearching := isSearching s;
    searchError := searchError s; lastUpdated := v;
    activeTab := activeTab s; dataFetchedRef := dataFetchedRef s;
    locationKeyRef := locationKeyRef s;
    currentLocationRef := currentLocationRef s |}).

Definition setDataFetchedRef (v : bool) : Handler :=
  modify (fun s => {|
    selectedLocation := selectedLocation s;
    searchedLocation := searchedLocation s; weatherData := weatherData s;
    forecastData := forecastData s; alertsData := alertsData s;
    loading := loading s; error := error s; isSearching := isSearching s;
    searchError := searchError s; lastUpdated := lastUpdated s;
    activeTab := activeTab s; dataFetchedRef := v;
    locationKeyRef := locationKeyRef s;
    currentLocationRef := currentLocationRef s |}).

Definition setLocationKeyRef (v : option string) : Handler :=
  modify (fun s => {|
    selectedLocation := selectedLocation s;
    searchedLocation := searchedLocation s; weatherData := weatherData s;
    forecastData := forecastData s; alertsData := alertsData s;
    loading := loading s; error := error s; isSearching := isSearching s;
    searchError := searchError s; lastUpdated := lastUpdated s;
    activeTab := activeTab s; dataFetchedRef := dataFetchedRef s;
    locationKeyRef := v;
    currentLocationRef := currentLocationRef s |}).

Definition setCurrentLocationRef (v : option Location) : Handler :=
  modify (fun s => {|
    selectedLocation := selectedLocation s;
    searchedLocation := searchedLocation s; weatherData := weatherData s;
    forecastData := forecastData s; alertsData := alertsData s;
    loading := loading s; error := error s; isSearching := isSearching s;
    searchError := searchError s; lastUpdated := lastUpdated s;
    activeTab := activeTab s; dataFetchedRef := dataFetchedRef s;
    locationKeyRef := locationKeyRef s;
    currentLocationRef := v |}).

(** ** The handlers *)

(** The message [fetchWeatherData] shows when a cycle fails. *)
Definition fetchErrorMessage : string :=
  "Failed to fetch weather data. Please try again later.".

Definition searchNotFoundMessage : string :=
  "Location not found. Please try another search.".

Definition searchFailedMessage : string :=
  "Location search failed. Please try again later.".

(** [prevLocation.lat === location.lat && prevLocation.lng === location.lng] *)
Definition sameCoordinates (prevLocation location : Location) : bool :=
  strict_eq (Location.lat prevLocation) (Location.lat location)
  && strict_eq (Location.lng prevLocation) (Location.lng location).

(** The updater [fetchWeatherData] passes to [setSelectedLocation] once a
    cycle is through: the name of the place comes from the reply, if the
    selection is still the place that was fetched. *)
Definition reconcileName (location : Location) (currentData : WeatherData)
    (prevLocation : option Location) : option Location :=
  match prevLocation with
  | Some prev =>
      if sameCoordinates prev location
      then Some {| Location.lat := Location.lat prev;
                   Location.lng := Location.lng prev;
                   Location.name := Some (WeatherData.name currentData) |}
      else Some prev
  | None => None
  end.

(** [catch] and [finally] of [fetchWeatherData]. *)
Definition failCycle : Handler :=
  log (ConsoleError "Error fetching weather data:") ;;
  setError (Some fetchErrorMessage) ;;
  setLoading false.

(** [fetchWeatherData] up to its first [await].  [loading] is the value the
    enclosing render bound. *)
Definition fetchWeatherData (loading : bool) (location : Location) : Handler :=
  if loading then skip
  else
    setLoading true ;;
    setError None ;;
    fetch (GetCurrent (Location.lat location) (Location.lng location))
          (AwaitCurrent location).

(** The rest of [fetchWeatherData] after the reply on current conditions. *)
Definition resumeCurrent (location : Location)
    (r : Response WeatherData) : Handler :=
  match r with
  | Json currentData =>
      setWeatherData (Some currentData) ;;
      fetch (GetForecast (Location.lat location) (Location.lng location))
            (AwaitForecast location currentData)
  | NetworkError | NotOk | Malformed => failCycle
  end.

(** ... after the reply on the forecast. *)
Definition resumeForecast (location : Location) (currentData : WeatherData)
    (r : Response ForecastData) : Handler :=
  match r with
  | Json forecastData =>
      setForecastData (Some forecastData) ;;
      fetch (GetOneCall (Location.lat location) (Location.lng location))
            (AwaitOneCall location currentData)
  | NetworkError | NotOk | Malformed => failCycle
  end.

(** ... after the reply on alerts; [now] is what [Date.now()] returns.
    [oneCallData.alerts || null]: an array, empty or not, is truthy and is
    stored as it is; a field that is missing is stored as [null]. *)
Definition resumeOneCall (location : Location) (currentData : WeatherData)
    (r : Response OneCallData) (now : Z) : Handler :=
  let finish :=
    setLastUpdated (Some now) ;;
    setSelectedLocation (reconcileName location currentData) ;;
    setLoading false in
  match r with
  | Json oneCallData =>
      setAlertsData (OneCallData.alerts oneCallData) ;; finish
  | NotOk =>
      log (ConsoleWarn "Could not fetch alerts data") ;;
      setAlertsData None ;; finish
  | NetworkError | Malformed => failCycle
  end.

(** [display_name.split(",")[0]]: the text before the first comma. *)
Fixpoint firstSegment (s : string) : string :=
  match s with
  | EmptyString => EmptyString
  | String c rest =>
      if Ascii.eqb c ","%char then EmptyString
      else String c (firstSegment rest)
  end.

(** [locationKey !== locationKeyRef.current] *)
Definition keyDiffers (locationKey : string) (current : option string) : bool :=
  match current with
  | Some k => negb (String.eqb locationKey k)
  | None => true
  end.

Section Handlers.
Context {B : Builtins}.

Definition locationKey (location : Location) : string :=
  toFixed (Location.lat location) 4 ++ "," ++ toFixed (Location.lng location) 4.

Definition handleLocationSelect (loading : bool) (location : Location)
    : Handler :=
  fun w0 =>
  let w := setCurrentLocationRef (Some location) w0 in
  if keyDiffers (locationKey location) (locationKeyRef (ui w)) then
    (setLocationKeyRef (Some (locationKey location)) ;;
     setDataFetchedRef false ;;
     setSelectedLocation (fun _ => Some location) ;;
     fetchWeatherData loading location ;;
     setDataFetchedRef true) w
  else
    setSelectedLocation (fun _ => Some location) w.

(** [handleSearch] up to its [await].  The URL is put together inside the
    [try], before [fetch] is called: when [encodeURIComponent] throws, no
    request goes out, and [catch] and [finally] run at once. *)
Definition handleSearch (loading : bool) (query : string) : Handler :=
  setIsSearching true ;;
  setSearchError None ;;
  match encodeURIComponent query with
  | Some q => fetch (GetGeocode q) (AwaitGeocode loading query)
  | None =>
      log (ConsoleError "Error searching location:") ;;
      setSearchError (Some searchFailedMessage) ;;
      setIsSearching false
  end.

Definition newLocation (result : Candidate) : Location :=
  {| Location.lat := parseFloat (Candidate.lat result);
     Location.lng := parseFloat (Candidate.lon result);
     Location.name := Some (firstSegment (Candidate.display_name result)) |}.

(** The rest of [handleSearch].  It calls the [handleLocationSelect] of
    its own render, hence with the [loading] it was started with. *)
Definition resumeGeocode (loading : bool)
    (r : Response (list Candidate)) : Handler :=
  match r with
  | Json [] =>
      setSearchError (Some searchNotFoundMessage) ;;
      setIsSearching false
  | Json (result :: _) =>
      setSearchedLocation (Some (newLocation result)) ;;
      handleLocationSelect loading (newLocation result) ;;
      setIsSearching false
  | NetworkError | NotOk | Malformed =>
      log (ConsoleError "Error searching location:") ;;
      setSearchError (Some searchFailedMessage) ;;
      setIsSearching false
  end.

Definition handleRefresh (loading : bool) : Handler := fun w =>
  match currentLocationRef (ui w) with
  | Some location =>
      (setDataFetchedRef false ;;
       fetchWeatherData loading location ;;
       setDataFetchedRef true) w
  | None => w
  end.

(** ** Events *)

(** What can happen to the component: the presentation layer calls one of
    the three handlers it was given (those of some render, whose [loading]
    the event carries), or the network answers request number [n]. *)
Inductive Event : Type :=
| LocationSelect (loading : bool) (location : Location)
| Search (loading : bool) (query : string)
| Refresh (loading : bool)
| CurrentReply (n : nat) (r : Response WeatherData)
| ForecastReply (n : nat) (r : Response ForecastData)
| OneCallReply (n : nat) (r : Response OneCallData) (now : Z)
| GeocodeReply (n : nat) (r : Response (list Candidate)).

Fixpoint lookupTask (n : nat) (ts : list (nat * Task)) : option Task :=
  match ts with
  | [] => None
  | (m, t) :: rest => if Nat.eqb n m then Some t else lookupTask n rest
  end.

Fixpoint removeTask (n : nat) (ts : list (nat * Task)) : list (nat * Task) :=
  match ts with
  | [] => []
  | (m, t) :: rest =>
      if Nat.eqb n m then rest else (m, t) :: removeTask n rest
  end.

(** The task that waits for request [n] leaves the table and runs. *)
Definition wake (n : nat) : Handler := fun w =>
  {| ui := ui w; requests := requests w;
     pending := removeTask n (pending w); console := console w |}.

(** One event.  [None]: the event cannot happen in this world (no task
    waits for that request, or the reply is of another endpoint). *)
Definition step (e : Event) (w : World) : option World :=
  match e with
  | LocationSelect loading location =>
      Some (handleLocationSelect loading location w)
  | Search loading query => Some (handleSearch loading query w)
  | Refresh loading => Some (handleRefresh loading w)
  | CurrentReply n r =>
      match lookupTask n (pending w) with
      | Some (AwaitCurrent location) =>
          Some ((wake n ;; resumeCurrent location r) w)
      | _ => None
      end
  | ForecastReply n r =>
      match lookupTask n (pending w) with
      | Some (AwaitForecast location currentData) =>
          Some ((wake n ;; resumeForecast location currentData r) w)
      | _ => None
      end
  | OneCallReply n r now =>
      match lookupTask n (pending w) with
      | Some (AwaitOneCall location currentData) =>
          Some ((wake n ;; resumeOneCall location currentData r now) w)
      | _ => None
      end
  | GeocodeReply n r =>
      match lookupTask n (pending w) with
      | Some (AwaitGeocode loading query) =>
          Some ((wake n ;; resumeGeocode loading r) w)
      | _ => None
      end
  end.

Fixpoint run (es : list Event) (w : World) : option World :=
  match es with
  | [] => Some w
  | e :: rest =>
      match step e w with
      | Some w' => run rest w'
      | None => None
      end
  end.

Definition isCycleReply (e : Event) : bool :=
  match e with
  | CurrentReply _ _ | ForecastReply _ _ | OneCallReply _ _ _ => true
  | LocationSelect _ _ | Search _ _ | Refresh _ | GeocodeReply _ _ => false
  end.

(** The replies one cycle receives when nothing else happens meanwhile:
    [n] is the number of its first request. *)
Definition cycleReplies (n : nat) (r1 : Response WeatherData)
    (r2 : Response ForecastData) (r3 : Response OneCallData) (now : Z)
    : list Event :=
  CurrentReply n r1 ::
  match r1 with
  | Json _ =>
      ForecastReply (S n) r2 ::
      match r2 with
      | Json _ => [OneCallReply (S (S n)) r3 now]
      | _ => []
      end
  | _ => []
  end.

(** Events in which no location is selected: anything but a click on the
    map and a geocoder reply that names a place. *)
Definition selectsNothing (e : Event) : bool :=
  match e with
  | LocationSelect _ _ => false
  | GeocodeReply _ (Json (_ :: _)) => false
  | _ => true
  end.

(** Events that leave the choice of [L] alone: replies to cycles, and
    further selections of a location with the key of [L]. *)
Definition quietFor (L : Location) (e : Event) : Prop :=
  match e with
  | LocationSelect _ L' => locationKey L' = locationKey L
  | _ => isCycleReply e = true
  end.

End Handlers.

(** ** Observations *)

Definition isGetCurrent (r : Request) : bool :=
  match r with GetCurrent _ _ => true | _ => false end.

(** Fetch cycles started so far: every cycle opens with the request for
    current conditions, and nothing else issues one. *)
Definition fetchCycles (w : World) : nat :=
  List.length (filter isGetCurrent (requests w)).

(** Is the task the rest of a [fetchWeatherData]? *)
Definition awaitsCycle (t : Task) : bool :=
  match t with
  | AwaitCurrent _ | AwaitForecast _ _ | AwaitOneCall _ _ => true
  | AwaitGeocode _ _ => false
  end.

(** Fetch cycles that have started and not yet reached their [finally]. *)
Definition inFlight (w : World) : nat :=
  List.length (filter (fun p => awaitsCycle (snd p)) (pending w)).

(** Every task in the table waits for a request that was issued. *)
Definition wf (w : World) : Prop :=
  Forall (fun p => fst p < List.length (requests w)) (pending w).

Definition isJson {A : Type} (r : Response A) : bool :=
  match r with Json _ => true | _ => false end.

(** The replies that let [fetchWeatherData] run to its last statement. *)
Definition completes (r : Response OneCallData) : bool :=
  match r with Json _ | NotOk => true | NetworkError | Malformed => false end.

(** The [loading] an event's handler reads is the one of the state: the
    presentation layer calls a handler of the latest render, and a search
    that is answered was started by a render whose [loading] still holds. *)
Definition seesCurrentLoading (e : Event) (w : World) : Prop :=
  match e with
  | LocationSelect b _ | Search b _ | Refresh b => b = loading (ui w)
  | GeocodeReply n _ =>
      match lookupTask n (pending w) with
      | Some (AwaitGeocode b _) => b = loading (ui w)
      | _ => True
      end
  | CurrentReply _ _ | ForecastReply _ _ | OneCallReply _ _ _ => True
  end.

(** The loading flag tells whether a cycle is in flight. *)
Definition flagTracksCycle (w : World) : Prop :=
  inFlight w = if loading (ui w) then 1 else 0.

Section Runs.
Context {B : Builtins}.

(** Every event of the run finds the [loading] it reads up to date. *)
Fixpoint allSeeCurrentLoading (es : list Event) (w : World) : Prop :=
  match es with
  | [] => True
  | e :: rest =>
      seesCurrentLoading e w
      /\ match step e w with
         | Some w' => allSeeCurrentLoading rest w'
         | None => True
         end
  end.

End Runs.

(** ** The builtins, as ECMAScript defines them

    [Number.prototype.toFixed] and [Number.parseFloat] on binary64 values,
    with exact integer arithmetic.  Strings are sequences of 8-bit
    characters here, so the white space [parseFloat] skips is that of the
    first 128 code points; [toFixed] is called with 4 digits only (an
    engine throws for more than 100). *)

Module Ecma.
Local Open Scope string_scope.

Definition prec : Z := 53.
Definition emax : Z := 1024.

(** The decimal digits of a natural number. *)
Definition digits (n : Z) : string :=
  NilZero.string_of_uint (N.to_uint (Z.to_N n)).

Definition pow10 (k : nat) : Z := 10 ^ Z.of_nat k.

Fixpoint zeros (k : nat) : string :=
  match k with
  | O => EmptyString
  | S k' => String "0" (zeros k')
  end.

(** *** [Number.prototype.toFixed] *)

(** The integer [n] for which [n / 10^f] is nearest to [m * 2^e], the
    larger one if two are equally near. *)
Definition scaled (m : positive) (e : Z) (f : nat) : Z :=
  match e with
  | Zneg p => (2 * Zpos m * pow10 f + 2 ^ Zpos p) / (2 * 2 ^ Zpos p)
  | _ => Zpos m * 2 ^ e * pow10 f
  end.

(** [n] written with [f] digits after the point. *)
Definition fixedDigits (n : Z) (f : nat) : string :=
  let m := digits n in
  match f with
  | O => m
  | S _ =>
      let m := if (String.length m <=? f)%nat
               then zeros (f + 1 - String.length m) ++ m else m in
      let k := String.length m in
      substring 0 (k - f) m ++ "." ++ substring (k - f) f m
  end.

(** [m * 2^e >= 10^21] *)
Definition atLeast1e21 (m : positive) (e : Z) : bool :=
  match e with
  | Zneg p => (10 ^ 21 * 2 ^ Zpos p <=? Zpos m)%Z
  | _ => (10 ^ 21 <=? Zpos m * 2 ^ e)%Z
  end.

(** Does the integer [v] round to the double [x]? *)
Definition roundsTo (x : number) (v : Z) : bool :=
  match v with
  | Zpos p => SFeqb (binary_round prec emax false p 0) x
  | _ => false
  end.

(** [Number::toString] looks for the fewest digits [s] such that
    [s * 10^p] rounds to [x].  With [k] digits the two candidates are the
    neighbours of [X] on the grid of step [10^(n - k)]; of two that round
    to [x] the nearer one is taken, the even one if they are equally near. *)
Definition candidate (x : number) (X : Z) (n k : nat) : option Z :=
  let q := pow10 (n - k) in
  let lo := (X / q)%Z in
  let hi := (lo + 1)%Z in
  let dlo := (X - lo * q)%Z in
  let dhi := (hi * q - X)%Z in
  match roundsTo x (lo * q), roundsTo x (hi * q) with
  | true, true =>
      if (dlo <? dhi)%Z then Some lo
      else if (dhi <? dlo)%Z then Some hi
      else if Z.even lo then Some lo else Some hi
  | true, false => Some lo
  | false, true => Some hi
  | false, false => None
  end.

Fixpoint shortest (x : number) (X : Z) (n k fuel : nat) : Z * nat :=
  match fuel with
  | O => ((X / pow10 (n - k))%Z, n - k)
  | S fuel' =>
      match candidate x X n k with
      | Some s => (s, n - k)
      | None => shortest x X n (S k) fuel'
      end
  end.

Fixpoint stripZeros (s : Z) (p fuel : nat) : Z * nat :=
  match fuel with
  | O => (s, p)
  | S fuel' =>
      if (0 <? s)%Z && (s mod 10 =? 0)%Z
      then stripZeros (s / 10)%Z (S p) fuel' else (s, p)
  end.

(** [Number::toString] of a finite [x >= 10^21]: exponent notation. *)
Definition toStringLarge (m : positive) (e : Z) : string :=
  let x := S754_finite false m e in
  let X := match e with
           | Zneg p => (Zpos m / 2 ^ Zpos p)%Z
           | _ => (Zpos m * 2 ^ e)%Z
           end in
  let n := String.length (digits X) in
  let '(s0, p0) := shortest x X n 1 17 in
  let '(s, p) := stripZeros s0 p0 n in
  let ds := digits s in
  let expo := digits (Z.of_nat (String.length ds + p - 1)) in
  match ds with
  | String d EmptyString => String d ("e+" ++ expo)
  | String d rest => String d ("." ++ rest ++ "e+" ++ expo)
  | EmptyString => EmptyString
  end.

Definition toFixed (x : number) (fractionDigits : nat) : string :=
  match x with
  | S754_nan => "NaN"
  | S754_infinity false => "Infinity"
  | S754_infinity true => "-Infinity"
  | S754_zero _ => fixedDigits 0 fractionDigits
  | S754_finite s m e =>
      (if s then "-" else "") ++
      (if atLeast1e21 m e then toStringLarge m e
       else fixedDigits (scaled m e fractionDigits) fractionDigits)
  end.

(** *** [Number.parseFloat] *)

Definition isDigit (c : ascii) : bool :=
  ((48 <=? nat_of_ascii c) && (nat_of_ascii c <=? 57))%nat.

(** Text is held as its UTF-8 bytes; a surrogate that has no partner,
    which a JavaScript string may hold and UTF-8 has no place for, is held
    as the three bytes its code point would take (ED, then A0..BF, then
    one more). *)

(** The white space and line terminators of one byte: TAB, LF, VT, FF, CR
    and the space. *)
Definition isSpace (c : ascii) : bool :=
  let n := nat_of_ascii c in
  (((9 <=? n) && (n <=? 13)) || (n =? 32))%nat.

(** The white space and line terminators of three bytes: U+1680,
    U+2000 to U+200A, U+2028, U+2029, U+202F, U+205F, U+3000, U+FEFF. *)
Definition isSpace3 (c1 c2 c3 : ascii) : bool :=
  let a := nat_of_ascii c1 in
  let b := nat_of_ascii c2 in
  let c := nat_of_ascii c3 in
  (((a =? 225) && (b =? 154) && (c =? 128))
   || ((a =? 226) && (b =? 128)
       && (((128 <=? c) && (c <=? 138))
           || (c =? 168) || (c =? 169) || (c =? 175)))
   || ((a =? 226) && (b =? 129) && (c =? 159))
   || ((a =? 227) && (b =? 128) && (c =? 128))
   || ((a =? 239) && (b =? 187) && (c =? 191)))%nat.

(** How many bytes the white space at the head of [s] takes; 0 if [s]
    does not begin with white space.  U+00A0 is the one of two bytes. *)
Definition spaceAhead (s : string) : nat :=
  match s with
  | String c1 rest1 =>
      if isSpace c1 then 1
      else
        match rest1 with
        | String c2 rest2 =>
            if ((nat_of_ascii c1 =? 194) && (nat_of_ascii c2 =? 160))%nat
            then 2
            else
              match rest2 with
              | String c3 _ => if isSpace3 c1 c2 c3 then 3 else 0
              | EmptyString => 0
              end
        | EmptyString => 0
        end
  | EmptyString => 0
  end.

Fixpoint trimFrom (fuel : nat) (s : string) : string :=
  match fuel with
  | O => s
  | S fuel' =>
      match spaceAhead s with
      | O => s
      | S _ as k => trimFrom fuel' (substring k (String.length s - k) s)
      end
  end.

(** [TrimString(s, start)]: every piece of white space takes a byte at
    least, so the length of [s] is fuel enough. *)
Definition trimStart (s : string) : string := trimFrom (String.length s) s.

(** Reads a run of digits: the number read so far, how many digits were
    read, and what follows them. *)
Fixpoint readDigits (s : string) (acc : Z) (count : nat) : Z * nat * string :=
  match s with
  | String c rest =>
      if isDigit c
      then readDigits rest (10 * acc + Z.of_nat (nat_of_ascii c - 48))%Z
             (S count)
      else (acc, count, s)
  | EmptyString => (acc, count, s)
  end.

Definition readSign (s : string) : bool * string :=
  match s with
  | String "-" rest => (true, rest)
  | String "+" rest => (false, rest)
  | _ => (false, s)
  end.

(** [ExponentPart], if one follows; otherwise 0. *)
Definition readExponent (s : string) : Z :=
  match s with
  | String c rest =>
      if Ascii.eqb c "e" || Ascii.eqb c "E" then
        let '(neg, rest') := readSign rest in
        let '(v, count, _) := readDigits rest' 0%Z 0 in
        match count with
        | O => 0%Z
        | S _ => if neg then (- v)%Z else v
        end
      else 0%Z
  | EmptyString => 0%Z
  end.

(** The double nearest to [d * 10^e], ties to even. *)
Definition decimalToDouble (neg : bool) (d : Z) (e : Z) : number :=
  match d with
  | Zpos m =>
      match e with
      | Zneg k =>
          SFdiv prec emax (S754_finite neg m 0)
                (S754_finite false (Z.to_pos (10 ^ Zpos k)) 0)
      | _ => binary_round prec emax neg (Z.to_pos (Zpos m * 10 ^ e)) 0
      end
  | _ => S754_zero neg
  end.

Definition parseFloat (input : string) : number :=
  let '(neg, s) := readSign (trimStart input) in
  if prefix "Infinity" s then S754_infinity neg
  else
    let '(ip, ni, s1) := readDigits s 0%Z 0 in
    let '(mant, nf, s2) :=
      match s1 with
      | String "." rest => readDigits rest ip 0
      | _ => (ip, 0, s1)
      end in
    match ni + nf with
    | O => S754_nan
    | S _ => decimalToDouble neg mant (readExponent s2 - Z.of_nat nf)
    end.

(** *** [encodeURIComponent] *)

(** The characters that are left as they are: letters, digits and the
    marks. *)
Definition isUnescaped (c : ascii) : bool :=
  let n := nat_of_ascii c in
  isDigit c
  || ((65 <=? n) && (n <=? 90))%nat
  || ((97 <=? n) && (n <=? 122))%nat
  || existsb (Ascii.eqb c) (list_ascii_of_string "-_.!~*'()").

Definition hexDigit (n : nat) : ascii :=
  match get n "0123456789ABCDEF" with
  | Some c => c
  | None => "0"%char
  end.

(** [%XX] for one byte. *)
Definition escaped (c : ascii) : string :=
  let n := nat_of_ascii c in
  String "%" (String (hexDigit (n / 16)) (String (hexDigit (n mod 16)) "")).

(** Does a surrogate without a partner begin here? *)
Definition loneSurrogate (c : ascii) (rest : string) : bool :=
  match rest with
  | String d _ => ((nat_of_ascii c =? 237) && (160 <=? nat_of_ascii d))%nat
  | EmptyString => false
  end.

(** Every byte of the UTF-8 form that is not an unescaped character is
    written as [%XX]; a surrogate without a partner is a [URIError]. *)
Fixpoint encodeURIComponent (s : string) : option string :=
  match s with
  | EmptyString => Some EmptyString
  | String c rest =>
      if loneSurrogate c rest then None
      else
        match encodeURIComponent rest with
        | Some r =>
            Some ((if isUnescaped c then String c "" else escaped c) ++ r)
        | None => None
        end
  end.

End Ecma.

(** The builtins of a conforming engine. *)
Definition ecma : Builtins := {|
  toFixed := Ecma.toFixed;
  parseFloat := Ecma.parseFloat;
  encodeURIComponent := Ecma.encodeURIComponent
|}.

(** ** Sample data for the concrete runs *)

Module Sample.

Definition num (s : string) : number := Ecma.parseFloat s.

(** A click on the map: coordinates, no name. *)
Definition paris : Location :=
  {| Location.lat := num "48.8566"; Location.lng := num "2.3522";
     Location.name := None |}.

(** A second click a few metres away: same key, other coordinates. *)
Definition parisNearby : Location :=
  {| Location.lat := num "48.85662"; Location.lng := num "2.35218";
     Location.name := None |}.

Definition london : Location :=
  {| Location.lat := num "51.5074"; Location.lng := num "-0.1278";
     Location.name := None |}.

Definition parisCandidate : Candidate :=
  {| Candidate.lat := "48.8566"; Candidate.lon := "2.3522";
     Candidate.display_name := "Paris, Ile-de-France, France" |}.

Definition clear : Condition.t :=
  {| Condition.id := num "800"; Condition.main := "Clear";
     Condition.description := "clear sky"; Condition.icon := "01d" |}.

Definition rain : Condition.t :=
  {| Condition.id := num "500"; Condition.main := "Rain";
     Condition.description := "light rain"; Condition.icon := "10d" |}.

Definition sunny : WeatherData :=
  {| WeatherData.main :=
       {| temp := num "21.5"; feels_like := num "21.1";
          humidity := num "40"; pressure := num "1018" |};
     WeatherData.weather := [clear];
     WeatherData.wind := {| speed := num "3.6"; deg := num "250" |};
     WeatherData.name := "Paris";
     WeatherData.sys_country := "FR" |}.

Definition rainy : WeatherData :=
  {| WeatherData.main :=
       {| temp := num "14.2"; feels_like := num "13.8";
          humidity := num "88"; pressure := num "1004" |};
     WeatherData.weather := [rain];
     WeatherData.wind := {| speed := num "6.1"; deg := num "190" |};
     WeatherData.name := "Paris";
     WeatherData.sys_country := "FR" |}.

Definition outlook : ForecastData :=
  {| ForecastData.list :=
       [ {| ForecastEntry.dt := num "1700000000";
            ForecastEntry.main :=
              {| temp := num "19"; feels_like := num "18.5";
                 humidity := num "45"; pressure := num "1017" |};
            ForecastEntry.weather := [clear];
            ForecastEntry.wind := {| speed := num "4"; deg := num "240" |};
            ForecastEntry.dt_txt := "2023-11-14 21:00:00" |} ];
     ForecastData.city_name := "Paris";
     ForecastData.city_country := "FR" |}.

Definition storm : Alert :=
  {| Alert.sender_name := "Meteo-France"; Alert.event := "Thunderstorm";
     Alert.start := num "1700000000"; Alert.end_ := num "1700020000";
     Alert.description := "Severe thunderstorms expected";
     Alert.tags := ["Thunderstorm"] |}.

Definition noon : Z := 1700000000000.

Definition later : Z := 1700000060000.

(** The place the geocoder finds for "Paris". *)
Definition parisFound : Location :=
  {| Location.lat := num "48.8566"; Location.lng := num "2.3522";
     Location.name := Some "Paris" |}.

(** A click on Paris and the three replies of its cycle: the state a user
    then looks at. *)
Definition firstVisit : list Event :=
  LocationSelect false paris ::
  cycleReplies 0 (Json sunny) (Json outlook)
    (Json {| OneCallData.alerts := Some [storm] |}) noon.

(** A click on Paris, answered up to the forecast: the cycle waits for the
    reply on alerts, under request number 2. *)
Definition untilForecast : list Event :=
  [LocationSelect false paris;
   CurrentReply 0 (Json sunny);
   ForecastReply 1 (Json outlook)].

(** The world a run ends in (the initial one if the run is impossible). *)
Definition worldAfter (es : list Event) (w : World) : World :=
  match run (B := ecma) es w with
  | Some w' => w'
  | None => initialWorld
  end.

(** A click on Paris: its cycle waits for the first reply. *)
Definition clicked : World :=
  handleLocationSelect (B := ecma) false paris initialWorld.

(** ... and the first reply has come. *)
Definition firstReplyIn : World :=
  worldAfter [CurrentReply 0 (Json sunny)] clicked.

(** ... and the forecast: the cycle waits for the alerts. *)
Definition forecastIn : World := worldAfter untilForecast initialWorld.

(** The whole first visit. *)
Definition settled : World := worldAfter firstVisit initialWorld.

(** A search for "Paris" on the fresh component, not yet answered. *)
Definition searching : World :=
  handleSearch (B := ecma) false "Paris" initialWorld.


(** A refresh of the settled view whose forecast request fails. *)
Definition failingRefresh : list Event :=
  Refresh false :: cycleReplies 3 (Json rainy) NetworkError NotOk later.

(** A refresh of the settled view whose request for alerts is rejected by
    the network. *)
Definition alertsRejected : list Event :=
  Refresh false ::
  cycleReplies 3 (Json rainy) (Json outlook) NetworkError later.

(** A search that finds nothing: no location is ever selected. *)
Definition fruitlessSearch : list Event :=
  [Search false "Atlantis"; GeocodeReply 0 (Json [])].

(** A search, then a click on the map while the geocoder is busy, then the
    geocoder's answer. *)
Definition clickDuringSearch : list Event :=
  [Search false "Paris";
   LocationSelect false london;
   GeocodeReply 0 (Json [parisCandidate])].

(** The selection moves a few metres while the cycle for Paris waits for
    the alerts; then the reply comes. *)
Definition movedMeanwhile : list Event :=
  untilForecast ++
  [LocationSelect true parisNearby; OneCallReply 2 NotOk noon].


End Sample.

(** ** What the component renders

    The element tree the component returns, as far as it depends on the
    state: which of its children are there and what they are given.  A
    handler that is passed down is known by the render that made it, that
    is, by the [loading] its [fetchWeatherData] reads. *)

Definition Closure : Type := bool.

(** The value of [alertsData && alertsData.length > 0]: [null] when there
    is no list (an array, even an empty one, is truthy), else the boolean. *)
Inductive JsFlag : Type :=
| FlagNull
| FlagBool (b : bool).

Definition truthy (f : JsFlag) : bool :=
  match f with
  | FlagBool b => b
  | FlagNull => false
  end.

Definition hasAlerts (alertsData : option (list Alert)) : JsFlag :=
  match alertsData with
  | Some alerts => FlagBool (0 <? List.length alerts)%nat
  | None => FlagNull
  end.

(** Auto-refresh interval in milliseconds (1 minute). *)
Definition AUTO_REFRESH_INTERVAL : Z := 60 * 1000.

Module SearchBox.
Record props : Type := mk {
  onSearch : Closure;
  isSearching : bool
}.
End SearchBox.

Module MapComponent.
Record props : Type := mk {
  selectedLocation : option Location;
  searchedLocation : option Location;
  hasAlerts : JsFlag;
  onLocationSelect : Closure;
  defaultCenter : number * number;
  defaultZoom : number
}.
End MapComponent.

Module CountdownTimer.
Record props : Type := mk {
  onRefresh : Closure;
  interval : Z;
  lastUpdated : option Z
}.
End CountdownTimer.

(** The content of the tab "alerts". *)
Inductive AlertsContent : Type :=
| DetailedAlerts (alerts : option (list Alert))
| NoAlertsText (text : string).

(** The [Tabs] element: the tab that is open, the one trigger that can be
    disabled and its dot, and what the four contents are given. *)
Module Tabs.
Record t : Type := mk {
  value : string;
  alertsDisabled : bool;
  alertsDot : bool;
  current : WeatherData;
  forecast : ForecastData;
  charts : ForecastData;
  alerts : AlertsContent
}.
End Tabs.

(** The fragment shown when both weather and forecast are there. *)
Module WeatherPanel.
Record t : Type := mk {
  banner : option (option (list Alert));
  tabs : Tabs.t;
  countdown : CountdownTimer.props
}.
End WeatherPanel.

(** The right-hand side of the page. *)
Inductive Panel : Type :=
| Spinner
| ErrorText (error : string)
| Weather (p : WeatherPanel.t)
| Placeholder (text : string).

Record View : Type := mkView {
  searchBox : SearchBox.props;
  searchErrorText : option string;
  map : MapComponent.props;
  panel : Panel
}.

(** A string in a condition: [null] and the empty string are falsy. *)
Definition shown (text : option string) : option string :=
  match text with
  | Some (String c rest) => Some (String c rest)
  | Some EmptyString | None => None
  end.

Definition weatherPanel (s : State) (weather : WeatherData)
    (forecast : ForecastData) : WeatherPanel.t :=
  {| WeatherPanel.banner :=
       if truthy (hasAlerts (alertsData s)) then Some (alertsData s) else None;
     WeatherPanel.tabs :=
       {| Tabs.value := activeTab s;
          Tabs.alertsDisabled := negb (truthy (hasAlerts (alertsData s)));
          Tabs.alertsDot := truthy (hasAlerts (alertsData s));
          Tabs.current := weather;
          Tabs.forecast := forecast;
          Tabs.charts := forecast;
          Tabs.alerts :=
            if truthy (hasAlerts (alertsData s))
            then DetailedAlerts (alertsData s)
            else NoAlertsText "No weather alerts for this location." |};
     WeatherPanel.countdown :=
       {| CountdownTimer.onRefresh := loading s;
          CountdownTimer.interval := AUTO_REFRESH_INTERVAL;
          CountdownTimer.lastUpdated := lastUpdated s |} |}.

(** [loading ? .. : error ? .. : weatherData && forecastData ? .. : ..] *)
Definition renderPanel (s : State) : Panel :=
  if loading s then Spinner
  else
    match shown (error s) with
    | Some message => ErrorText message
    | None =>
        match weatherData s, forecastData s with
        | Some weather, Some forecast => Weather (weatherPanel s weather forecast)
        | _, _ =>
            Placeholder
              "Select a location on the map or search for a place to view weather information."
        end
    end.

(** The component function, from the state of one render to its output. *)
Definition render (s : State) : View :=
  {| searchBox :=
       {| SearchBox.onSearch := loading s;
          SearchBox.isSearching := isSearching s |};
     searchErrorText := shown (searchError s);
     map :=
       {| MapComponent.selectedLocation := selectedLocation s;
          MapComponent.searchedLocation := searchedLocation s;
          MapComponent.hasAlerts := hasAlerts (alertsData s);
          MapComponent.onLocationSelect := loading s;
          MapComponent.defaultCenter :=
            (Ecma.parseFloat "20.0", Ecma.parseFloat "0.0");
          MapComponent.defaultZoom := Ecma.parseFloat "2" |};
     panel := renderPanel s |}.

(** The events the page on screen can give rise to: a child calls the
    handler it was given, if the child is there; the network may always
    answer. *)
Definition offers (v : View) (e : Event) : Prop :=
  match e with
  | LocationSelect b _ => b = MapComponent.onLocationSelect (map v)
  | Search b _ => b = SearchBox.onSearch (searchBox v)
  | Refresh b =>
      match panel v with
      | Weather p => b = CountdownTimer.onRefresh (WeatherPanel.countdown p)
      | Spinner | ErrorText _ | Placeholder _ => False
      end
  | CurrentReply _ _ | ForecastReply _ _ | OneCallReply _ _ _
  | GeocodeReply _ _ => True
  end.

(** Is the task the rest of a [handleSearch]? *)
Definition awaitsGeocoder (t : Task) : bool :=
  match t with
  | AwaitGeocode _ _ => true
  | AwaitCurrent _ | AwaitForecast _ _ | AwaitOneCall _ _ => false
  end.

(** Searches whose answer has not come yet. *)
Definition searchesAwaited (w : World) : nat :=
  List.length (filter (fun p => awaitsGeocoder (snd p)) (pending w)).

(** The events that call [fetchWeatherData]: a click on the map, a
    refresh, and the answer of the geocoder that names a place. *)
Definition mayFetch (e : Event) : bool :=
  match e with
  | LocationSelect _ _ | Refresh _ => true
  | GeocodeReply _ (Json (_ :: _)) => true
  | _ => false
  end.

Section Coherence.
Context {B : Builtins}.

(** The three refs and the selection on display tell the same story: the
    key is the key of the remembered location, the selection has its
    coordinates, and [dataFetchedRef] is set once there is one. *)
Definition refsAgree (w : World) : Prop :=
  locationKeyRef (ui w) = option_map locationKey (currentLocationRef (ui w))
  /\ option_map Location.lat (selectedLocation (ui w))
     = option_map Location.lat (currentLocationRef (ui w))
  /\ option_map Location.lng (selectedLocation (ui w))
     = option_map Location.lng (currentLocationRef (ui w))
  /\ dataFetchedRef (ui w)
     = match currentLocationRef (ui w) with Some _ => true | None => false end.

(** Without a remembered location there is neither weather on display nor
    a cycle in flight. *)
Definition grounded (w : World) : Prop :=
  currentLocationRef (ui w) = None ->
  weatherData (ui w) = None /\ inFlight w = 0.

Definition coherent (w : World) : Prop := refsAgree w /\ grounded w.

(** A user who keeps to the location [L]: every event is a reply to a
    cycle, a selection of a location with the key of [L], or a refresh
    that the page on screen offers. *)
Fixpoint keepsTo (L : Location) (es : list Event) (w : World) : Prop :=
  match es with
  | [] => True
  | e :: rest =>
      (quietFor L e
       \/ (exists b, e = Refresh b /\ offers (render (ui w)) e))
      /\ match step e w with
         | Some w' => keepsTo L rest w'
         | None => True
         end
  end.

(** The request a task of a cycle waits for is in the log. *)
Definition taskFollows (rs : list Request) (t : Task) : Prop :=
  match t with
  | AwaitCurrent L => In (GetCurrent (Location.lat L) (Location.lng L)) rs
  | AwaitForecast L _ =>
      In (GetForecast (Location.lat L) (Location.lng L)) rs
  | AwaitOneCall L _ => In (GetOneCall (Location.lat L) (Location.lng L)) rs
  | AwaitGeocode _ _ => True
  end.

(** No forecast is asked for before current conditions were, and no
    alerts before the forecast, for the same coordinates. *)
Definition requestsFollow (w : World) : Prop :=
  (forall a b, In (GetForecast a b) (requests w) ->
               In (GetCurrent a b) (requests w))
  /\ (forall a b, In (GetOneCall a b) (requests w) ->
                  In (GetForecast a b) (requests w))
  /\ Forall (fun p => taskFollows (requests w) (snd p)) (pending w).

End Coherence.

(** More sample runs. *)
Module Tour.

(** London is clicked while Paris loads; then the cycle for Paris gets its
    three replies. *)
Definition overtaken : list Event :=
  [LocationSelect false Sample.paris;
   LocationSelect true Sample.london;
   CurrentReply 0 (Json Sample.sunny);
   ForecastReply 1 (Json Sample.outlook);
   OneCallReply 2 NotOk Sample.noon].

(** The settled view, refreshed without success. *)
Definition failed : World :=
  Sample.worldAfter Sample.failingRefresh Sample.settled.

(** Two more clicks on the place that failed to load. *)
Definition retries : list Event :=
  [LocationSelect false Sample.paris;
   LocationSelect false Sample.parisNearby].

(** The page at the end of the first visit. *)
Definition settledPanel : WeatherPanel.t :=
  weatherPanel (ui Sample.settled) Sample.sunny Sample.outlook.

(** Two clicks a couple of metres apart, one on each side of the
    equator. *)
Definition justNorth : Location :=
  {| Location.lat := Sample.num "0.00001"; Location.lng := Sample.num "10";
     Location.name := None |}.

Definition justSouth : Location :=
  {| Location.lat := Sample.num "-0.00001"; Location.lng := Sample.num "10";
     Location.name := None |}.

(** The replies to the cycle of the first of them. *)
Definition northLoads : list Event :=
  cycleReplies 0 (Json Sample.sunny) (Json Sample.outlook)
    (Json {| OneCallData.alerts := None |}) Sample.noon.

End Tour.

(** ** Equality at four decimal places

    The dedup key is described as equality of the coordinates at four
    decimal places.  [roundedTo4 x] is [x] rounded to four decimal places,
    counted in units of [10^-4] (the nearest one, the one further from
    zero of two equally near); [NaN] and the infinities have none.  It is
    the number whose digits [toFixed(4)] prints after the sign. *)
Definition roundedTo4 (x : number) : option Z :=
  match x with
  | S754_zero _ => Some 0%Z
  | S754_finite s m e =>
      Some (if s then (- Ecma.scaled m e 4)%Z else Ecma.scaled m e 4)
  | S754_infinity _ | S754_nan => None
  end.

Definition sameRounded (x y : number) : bool :=
  match roundedTo4 x, roundedTo4 y with
  | Some a, Some b => (a =? b)%Z
  | _, _ => false
  end.

(** Coordinate pairs that are equal when rounded to four decimal places. *)
Definition equalAt4Decimals (L1 L2 : Location) : bool :=
  sameRounded (Location.lat L1) (Location.lat L2)
  && sameRounded (Location.lng L1) (Location.lng L2).

(** * Properties *)

Section Properties.
Context {B : Builtins}.

(** ** The task table *)

Lemma lookupTask_new (n : nat) (k : Task) (ts : list (nat * Task)) :
  Forall (fun p => fst p < n) ts ->
  lookupTask n (ts ++ [(n, k)]) = Some k.
Proof.
  induction ts as [|[m t] ts IH]; intros Hall; cbn.
  - now rewrite Nat.eqb_refl.
  - inversion Hall as [|? ? Hm Hts]; subst. cbn in Hm.
    destruct (Nat.eqb_spec n m) as [->|_]; [exfalso; lia|]. now apply IH.
Qed.

Lemma removeTask_new (n : nat) (k : Task) (ts : list (nat * Task)) :
  Forall (fun p => fst p < n) ts ->
  removeTask n (ts ++ [(n, k)]) = ts.
Proof.
  induction ts as [|[m t] ts IH]; intros Hall; cbn.
  - now rewrite Nat.eqb_refl.
  - inversion Hall as [|? ? Hm Hts]; subst. cbn in Hm.
    destruct (Nat.eqb_spec n m) as [->|_]; [exfalso; lia|]. now rewrite IH.
Qed.

Lemma removeTask_bound (n b : nat) (ts : list (nat * Task)) :
  Forall (fun p => fst p < b) ts ->
  Forall (fun p => fst p < b) (removeTask n ts).
Proof.
  induction ts as [|[m t] ts IH]; intros Hall; cbn; [constructor|].
  inversion Hall; subst.
  destruct (Nat.eqb n m); [assumption|]. constructor; auto.
Qed.

Lemma bound_weaken (b : nat) (ts : list (nat * Task)) :
  Forall (fun p => fst p < b) ts ->
  Forall (fun p => fst p < S b) ts.
Proof.
  intros H. eapply Forall_impl; [|exact H]. cbn. intros; lia.
Qed.

(** Waking a task up takes one task of its kind out of the table. *)
Lemma removeTask_inFlight (n : nat) (t : Task) (ts : list (nat * Task)) :
  lookupTask n ts = Some t ->
  List.length (filter (fun p => awaitsCycle (snd p)) ts) =
  (if awaitsCycle t then 1 else 0)
  + List.length (filter (fun p => awaitsCycle (snd p)) (removeTask n ts)).
Proof.
  induction ts as [|[m u] ts IH]; cbn [lookupTask removeTask filter snd];
    [discriminate|].
  destruct (Nat.eqb n m).
  - intros [= ->]. destruct (awaitsCycle t); cbn [List.length]; lia.
  - intros Hl. specialize (IH Hl). cbn [filter snd].
    destruct (awaitsCycle u); cbn [List.length]; lia.
Qed.

(** ** How many cycles a list of requests opens *)

Lemma fetchCycles_requests (w w' : World) :
  requests w' = requests w -> fetchCycles w' = fetchCycles w.
Proof. unfold fetchCycles. now intros ->. Qed.

Lemma fetchCycles_snoc (w w' : World) (r : Request) :
  requests w' = requests w ++ [r] ->
  fetchCycles w' = (if isGetCurrent r then 1 else 0) + fetchCycles w.
Proof.
  unfold fetchCycles. intros ->. rewrite filter_app, length_app. cbn.
  destruct (isGetCurrent r); cbn; lia.
Qed.

(** A search opens no cycle, whether its request goes out or not. *)
Lemma search_cycles (b : bool) (q : string) (w : World) :
  fetchCycles (handleSearch b q w) = fetchCycles w.
Proof.
  unfold handleSearch, seq.
  destruct (encodeURIComponent q) as [q'|].
  - now rewrite (fetchCycles_snoc w _ (GetGeocode q')).
  - now apply fetchCycles_requests.
Qed.

(** ** The dedup key *)

Lemma keyDiffers_false (k : string) (o : option string) :
  keyDiffers k o = false <-> o = Some k.
Proof.
  destruct o as [k'|]; cbn.
  - rewrite negb_false_iff, String.eqb_eq. split; congruence.
  - split; discriminate.
Qed.

Lemma keyDiffers_true (k : string) (o : option string) :
  keyDiffers k o = true <-> o <> Some k.
Proof.
  rewrite <- keyDiffers_false. destruct (keyDiffers k o); split; congruence.
Qed.

(** ** [handleLocationSelect], one call *)

Lemma select_requests (b : bool) (L : Location) (w : World) :
  requests (handleLocationSelect b L w) =
  if keyDiffers (locationKey L) (locationKeyRef (ui w)) && negb b
  then requests w ++ [GetCurrent (Location.lat L) (Location.lng L)]
  else requests w.
Proof.
  unfold handleLocationSelect. cbn.
  destruct (keyDiffers _ _); [|reflexivity].
  destruct b; reflexivity.
Qed.

Lemma select_key (b : bool) (L : Location) (w : World) :
  locationKeyRef (ui (handleLocationSelect b L w)) = Some (locationKey L).
Proof.
  unfold handleLocationSelect. cbn.
  destruct (keyDiffers _ _) eqn:Hk.
  - destruct b; reflexivity.
  - cbn. now apply keyDiffers_false.
Qed.

Lemma select_selected (b : bool) (L : Location) (w : World) :
  selectedLocation (ui (handleLocationSelect b L w)) = Some L.
Proof.
  unfold handleLocationSelect. cbn.
  destruct (keyDiffers _ _); [destruct b|]; reflexivity.
Qed.

Lemma select_pending (b : bool) (L : Location) (w : World) :
  pending (handleLocationSelect b L w) =
  if keyDiffers (locationKey L) (locationKeyRef (ui w)) && negb b
  then pending w ++ [(List.length (requests w), AwaitCurrent L)]
  else pending w.
Proof.
  unfold handleLocationSelect. cbn.
  destruct (keyDiffers _ _); [|reflexivity].
  destruct b; reflexivity.
Qed.

Lemma select_loading (b : bool) (L : Location) (w : World) :
  loading (ui (handleLocationSelect b L w)) =
  if keyDiffers (locationKey L) (locationKeyRef (ui w)) && negb b
  then true else loading (ui w).
Proof.
  unfold handleLocationSelect. cbn.
  destruct (keyDiffers _ _); [|reflexivity].
  destruct b; reflexivity.
Qed.

Lemma select_currentRef (b : bool) (L : Location) (w : World) :
  currentLocationRef (ui (handleLocationSelect b L w)) = Some L.
Proof.
  unfold handleLocationSelect. cbn.
  destruct (keyDiffers _ _); [destruct b|]; reflexivity.
Qed.

(** ** Replies to a cycle *)

(** A reply to a cycle never touches the dedup key or the remembered
    location, and never opens a cycle. *)
Lemma cycle_reply_frame (e : Event) (w w' : World) :
  isCycleReply e = true ->
  step e w = Some w' ->
  locationKeyRef (ui w') = locationKeyRef (ui w)
  /\ currentLocationRef (ui w') = currentLocationRef (ui w)
  /\ fetchCycles w' = fetchCycles w.
Proof.
  destruct e as [| | |n r|n r|n r now|]; try discriminate; intros _; cbn;
    destruct (lookupTask n (pending w)) as [[]|]; try discriminate;
    intros [= <-]; destruct r; cbn; repeat split;
    try reflexivity;
    unfold fetchCycles; cbn; rewrite ?filter_app; cbn;
    now rewrite ?app_nil_r.
Qed.

Lemma cycle_replies_frame (es : list Event) (w w' : World) :
  forallb isCycleReply es = true ->
  run es w = Some w' ->
  locationKeyRef (ui w') = locationKeyRef (ui w)
  /\ currentLocationRef (ui w') = currentLocationRef (ui w)
  /\ fetchCycles w' = fetchCycles w.
Proof.
  revert w. induction es as [|e es IH]; intros w Hall Hrun; cbn in *.
  - injection Hrun as <-. auto.
  - apply andb_prop in Hall as [He Hes].
    destruct (step e w) as [w1|] eqn:Hstep; [|discriminate].
    destruct (cycle_reply_frame e w w1 He Hstep) as (Hk & Hc & Hf).
    destruct (IH w1 Hes Hrun) as (Hk' & Hc' & Hf').
    repeat split; congruence.
Qed.


(** ** Selecting a location *)

(** C1, as the code has it.  Two selections in a row of locations with one
    and the same dedup key, the string [locationKey] builds: whatever
    replies arrive in between, the second call issues no request and parks
    no task, and the selection it was given is the one on display.  The
    two calls open one fetch cycle when the key is new to the controller
    and the first handler belongs to a render that saw [loading = false],
    and none otherwise. *)
Theorem select_same_key_fetches_at_most_once
    (w : World) (b1 b2 : bool) (L1 L2 : Location) (es : list Event)
    (w1 : World) :
  locationKey L1 = locationKey L2 ->
  forallb isCycleReply es = true ->
  run es (handleLocationSelect b1 L1 w) = Some w1 ->
  let w2 := handleLocationSelect b2 L2 w1 in
  fetchCycles w2 =
    fetchCycles w
    + (if keyDiffers (locationKey L1) (locationKeyRef (ui w)) && negb b1
       then 1 else 0)
  /\ requests w2 = requests w1
  /\ pending w2 = pending w1
  /\ selectedLocation (ui w2) = Some L2.
Proof.
  intros Hkey Hes Hrun w2. subst w2.
  destruct (cycle_replies_frame es _ w1 Hes Hrun) as (Hk & _ & Hf).
  rewrite select_key in Hk.
  assert (Hsame : keyDiffers (locationKey L2) (locationKeyRef (ui w1)) = false).
  { apply keyDiffers_false. congruence. }
  assert (Hq2 : requests (handleLocationSelect b2 L2 w1) = requests w1).
  { rewrite select_requests, Hsame. reflexivity. }
  split; [|split; [exact Hq2|split]].
  - rewrite (fetchCycles_requests w1 _ Hq2), Hf.
    pose proof (select_requests b1 L1 w) as Hq.
    destruct (keyDiffers (locationKey L1) (locationKeyRef (ui w)) && negb b1).
    + rewrite (fetchCycles_snoc w _ _ Hq). cbn [isGetCurrent]. lia.
    + rewrite (fetchCycles_requests w _ Hq). lia.
  - rewrite select_pending, Hsame. reflexivity.
  - apply select_selected.
Qed.

(** C2, as the code has it.  Two selections in a row of locations with
    different keys open two fetch cycles when the second handler belongs
    to a render that saw [loading = false]; a handler of a render that saw
    [loading = true] is stopped by the guard of [fetchWeatherData], and
    only the first cycle exists.  Key and selection move to the second
    location either way.  As long as no reply has arrived, the latest
    render is one that saw [loading = true]. *)
Theorem select_other_key_fetches_unless_loading
    (w : World) (b2 : bool) (L1 L2 : Location) (es : list Event) (w1 : World) :
  locationKey L1 <> locationKey L2 ->
  locationKeyRef (ui w) <> Some (locationKey L1) ->
  forallb isCycleReply es = true ->
  run es (handleLocationSelect false L1 w) = Some w1 ->
  let w2 := handleLocationSelect b2 L2 w1 in
  fetchCycles w2 = (if b2 then 1 else 2) + fetchCycles w
  /\ locationKeyRef (ui w2) = Some (locationKey L2)
  /\ selectedLocation (ui w2) = Some L2
  /\ (es = [] -> loading (ui w1) = true).
Proof.
  intros Hkey Hnew Hes Hrun w2. subst w2.
  apply keyDiffers_true in Hnew.
  destruct (cycle_replies_frame es _ w1 Hes Hrun) as (Hk & _ & Hf).
  rewrite select_key in Hk.
  assert (Hdiff : keyDiffers (locationKey L2) (locationKeyRef (ui w1)) = true).
  { apply keyDiffers_true. rewrite Hk. congruence. }
  assert (H1 : fetchCycles w1 = 1 + fetchCycles w).
  { rewrite Hf.
    rewrite (fetchCycles_snoc w _
               (GetCurrent (Location.lat L1) (Location.lng L1)));
      [reflexivity|].
    rewrite select_requests, Hnew. reflexivity. }
  rewrite select_key, select_selected. repeat split.
  - destruct b2.
    + rewrite (fetchCycles_requests w1); [exact H1|].
      rewrite select_requests, Hdiff. reflexivity.
    + rewrite (fetchCycles_snoc w1 _
                 (GetCurrent (Location.lat L2) (Location.lng L2))).
      * cbn. rewrite H1. reflexivity.
      * rewrite select_requests, Hdiff. reflexivity.
  - intros ->. cbn in Hrun. injection Hrun as <-.
    rewrite select_loading, Hnew. reflexivity.
Qed.


(** ** One fetch cycle *)

(** The well-formedness of the task table is kept by every event. *)
Lemma wf_fetch (r : Request) (k : Task) (w : World) :
  wf w -> wf (fetch r k w).
Proof.
  unfold wf, fetch. cbn. intros H. rewrite length_app. cbn.
  apply Forall_app. split.
  - eapply Forall_impl; [|exact H]. cbn. intros; lia.
  - constructor; [cbn; lia|constructor].
Qed.

Lemma wf_modify (f : State -> State) (w : World) : wf w -> wf (modify f w).
Proof. exact (fun H => H). Qed.

Lemma wf_log (l : LogLine) (w : World) : wf w -> wf (log l w).
Proof. exact (fun H => H). Qed.

Lemma wf_wake (n : nat) (w : World) : wf w -> wf (wake n w).
Proof. unfold wf, wake. cbn. apply removeTask_bound. Qed.

Lemma wf_fetchWeatherData (b : bool) (L : Location) (w : World) :
  wf w -> wf (fetchWeatherData b L w).
Proof.
  intros H. unfold fetchWeatherData. destruct b; [exact H|].
  unfold seq. apply wf_fetch. exact H.
Qed.

Lemma wf_select (b : bool) (L : Location) (w : World) :
  wf w -> wf (handleLocationSelect b L w).
Proof.
  intros H. unfold handleLocationSelect.
  destruct (keyDiffers _ _); [|exact H].
  unfold seq. apply wf_modify, wf_fetchWeatherData. exact H.
Qed.

Lemma wf_step (e : Event) (w w' : World) :
  wf w -> step e w = Some w' -> wf w'.
Proof.
  intros H. destruct e as [b L|b q|b|n r|n r|n r now|n r]; cbn.
  - intros [= <-]. now apply wf_select.
  - intros [= <-]. unfold handleSearch, seq.
    destruct (encodeURIComponent q); [now apply wf_fetch|exact H].
  - intros [= <-]. unfold handleRefresh.
    destruct (currentLocationRef (ui w)); [|exact H].
    unfold seq. apply wf_modify, wf_fetchWeatherData. exact H.
  - destruct (lookupTask n (pending w)) as [[]|]; try discriminate.
    intros [= <-]. apply (wf_wake n) in H. revert H. unfold seq.
    generalize (wake n w). intros v H.
    destruct r; cbn; try exact H. now apply wf_fetch.
  - destruct (lookupTask n (pending w)) as [[]|]; try discriminate.
    intros [= <-]. apply (wf_wake n) in H. revert H. unfold seq.
    generalize (wake n w). intros v H.
    destruct r; cbn; try exact H. now apply wf_fetch.
  - destruct (lookupTask n (pending w)) as [[]|]; try discriminate.
    intros [= <-]. apply (wf_wake n) in H. revert H. unfold seq.
    generalize (wake n w). intros v H.
    destruct r; cbn; exact H.
  - destruct (lookupTask n (pending w)) as [[]|]; try discriminate.
    intros [= <-]. apply (wf_wake n) in H. revert H. unfold seq.
    generalize (wake n w). intros v H.
    destruct r as [| | |[|c cs]]; cbn; try exact H.
    apply wf_modify. apply wf_select. exact H.
Qed.

Lemma wf_run (es : list Event) (w w' : World) :
  wf w -> run es w = Some w' -> wf w'.
Proof.
  revert w. induction es as [|e es IH]; intros w H; cbn.
  - now intros [= <-].
  - destruct (step e w) as [w1|] eqn:Hs; [|discriminate].
    apply IH. eapply wf_step; eauto.
Qed.

Lemma wf_initial : wf initialWorld.
Proof. constructor. Qed.

Lemma length_snoc {A : Type} (l : list A) (x : A) :
  List.length (l ++ [x]) = S (List.length l).
Proof. rewrite length_app. cbn. lia. Qed.

(** The reply to the request a task was parked under last wakes that task
    up. *)
Lemma current_reply_last (w : World) (ts : list (nat * Task)) (n : nat)
    (location : Location) (r : Response WeatherData) :
  pending w = ts ++ [(n, AwaitCurrent location)] ->
  Forall (fun p => fst p < n) ts ->
  step (CurrentReply n r) w =
  Some (resumeCurrent location r
          {| ui := ui w; requests := requests w;
             pending := ts; console := console w |}).
Proof.
  intros Hp Hb. cbn. rewrite Hp, lookupTask_new by assumption.
  unfold seq, wake. rewrite Hp, removeTask_new by assumption. reflexivity.
Qed.

Lemma forecast_reply_last (w : World) (ts : list (nat * Task)) (n : nat)
    (location : Location) (currentData : WeatherData)
    (r : Response ForecastData) :
  pending w = ts ++ [(n, AwaitForecast location currentData)] ->
  Forall (fun p => fst p < n) ts ->
  step (ForecastReply n r) w =
  Some (resumeForecast location currentData r
          {| ui := ui w; requests := requests w;
             pending := ts; console := console w |}).
Proof.
  intros Hp Hb. cbn. rewrite Hp, lookupTask_new by assumption.
  unfold seq, wake. rewrite Hp, removeTask_new by assumption. reflexivity.
Qed.

Lemma onecall_reply_last (w : World) (ts : list (nat * Task)) (n : nat)
    (location : Location) (currentData : WeatherData)
    (r : Response OneCallData) (now : Z) :
  pending w = ts ++ [(n, AwaitOneCall location currentData)] ->
  Forall (fun p => fst p < n) ts ->
  step (OneCallReply n r now) w =
  Some (resumeOneCall location currentData r now
          {| ui := ui w; requests := requests w;
             pending := ts; console := console w |}).
Proof.
  intros Hp Hb. cbn. rewrite Hp, lookupTask_new by assumption.
  unfold seq, wake. rewrite Hp, removeTask_new by assumption. reflexivity.
Qed.

(** A cycle that nothing interrupts runs to its end, whatever the network
    answers, and this is the state it leaves. *)
Lemma cycle_run (w : World) (location : Location)
    (r1 : Response WeatherData) (r2 : Response ForecastData)
    (r3 : Response OneCallData) (now : Z) :
  wf w ->
  exists w',
    run (cycleReplies (List.length (requests w)) r1 r2 r3 now)
        (fetchWeatherData false location w) = Some w'
    /\ pending w' = pending w
    /\ loading (ui w') = false
    /\ weatherData (ui w') =
         match r1 with Json d => Some d | _ => weatherData (ui w) end
    /\ forecastData (ui w') =
         match r1, r2 with
         | Json _, Json f => Some f
         | _, _ => forecastData (ui w)
         end
    /\ alertsData (ui w') =
         match r1, r2, r3 with
         | Json _, Json _, Json d => OneCallData.alerts d
         | Json _, Json _, NotOk => None
         | _, _, _ => alertsData (ui w)
         end
    /\ lastUpdated (ui w') =
         (if isJson r1 && isJson r2 && completes r3
          then Some now else lastUpdated (ui w))
    /\ error (ui w') =
         (if isJson r1 && isJson r2 && completes r3
          then None else Some fetchErrorMessage)
    /\ selectedLocation (ui w') =
         match r1 with
         | Json d =>
             if isJson r2 && completes r3
             then reconcileName location d (selectedLocation (ui w))
             else selectedLocation (ui w)
         | _ => selectedLocation (ui w)
         end
    /\ fetchCycles w' = S (fetchCycles w).
Proof.
  intros Hwf. unfold wf in Hwf.
  set (n := List.length (requests w)) in *.
  pose proof (bound_weaken _ _ Hwf) as Hwf1.
  pose proof (bound_weaken _ _ Hwf1) as Hwf2.
  assert (Hc : forall v, requests v = requests w ++
                 [GetCurrent (Location.lat location) (Location.lng location)]
               -> fetchCycles v = S (fetchCycles w)).
  { intros v Hv. now rewrite (fetchCycles_snoc w v _ Hv). }
  assert (Hc2 : forall v a, requests v = (requests w ++
                 [GetCurrent (Location.lat location) (Location.lng location)])
                 ++ [GetForecast a (Location.lng location)]
               -> fetchCycles v = S (fetchCycles w)).
  { intros v a Hv. unfold fetchCycles. rewrite Hv, !filter_app, !length_app.
    cbn. lia. }
  assert (Hc3 : forall v a a', requests v = ((requests w ++
                 [GetCurrent (Location.lat location) (Location.lng location)])
                 ++ [GetForecast a (Location.lng location)])
                 ++ [GetOneCall a' (Location.lng location)]
               -> fetchCycles v = S (fetchCycles w)).
  { intros v a a' Hv. unfold fetchCycles.
    rewrite Hv, !filter_app, !length_app. cbn. lia. }
  destruct r1 as [| | |d]; cbn [cycleReplies run].
  1-3: rewrite (current_reply_last (fetchWeatherData false location w)
             (pending w) n location _ eq_refl Hwf);
       eexists; split; [reflexivity|]; repeat split; now apply Hc.
  rewrite (current_reply_last (fetchWeatherData false location w)
             (pending w) n location _ eq_refl Hwf).
  set (s1 := resumeCurrent location (Json d) _).
  assert (Hp1 : pending s1 = pending w ++ [(S n, AwaitForecast location d)]).
  { subst s1. cbn. now rewrite length_snoc. }
  destruct r2 as [| | |f]; cbn [run].
  1-3: rewrite (forecast_reply_last s1 (pending w) (S n) location d _ Hp1 Hwf1);
       eexists; split; [reflexivity|]; repeat split;
       now apply (Hc2 _ (Location.lat location)).
  rewrite (forecast_reply_last s1 (pending w) (S n) location d _ Hp1 Hwf1).
  set (s2 := resumeForecast location d (Json f) _).
  assert (Hp2 : pending s2 = pending w ++ [(S (S n), AwaitOneCall location d)]).
  { subst s2 s1. cbn. now rewrite !length_snoc. }
  rewrite (onecall_reply_last s2 (pending w) (S (S n)) location d _ _ Hp2 Hwf2).
  eexists; split; [reflexivity|].
  destruct r3; repeat split;
    now apply (Hc3 _ (Location.lat location) (Location.lat location)).
Qed.

(** C3, as the code has it.  A cycle in which current conditions or the
    forecast fail ends with the fixed, non-empty message in [error].  The
    forecast, the alerts, the time stamp and the selection are as they were
    before the cycle.  The snapshot of current conditions is as it was only
    if the failure was that of the first request: a reply on current
    conditions is stored as soon as it is there, before the forecast is
    asked for. *)
Theorem failed_cycle_keeps_what_was_not_fetched
    (w : World) (location : Location)
    (r1 : Response WeatherData) (r2 : Response ForecastData)
    (r3 : Response OneCallData) (now : Z) :
  wf w ->
  isJson r1 && isJson r2 = false ->
  exists w',
    run (cycleReplies (List.length (requests w)) r1 r2 r3 now)
        (fetchWeatherData false location w) = Some w'
    /\ weatherData (ui w') =
         match r1 with
         | Json currentData => Some currentData
         | _ => weatherData (ui w)
         end
    /\ forecastData (ui w') = forecastData (ui w)
    /\ alertsData (ui w') = alertsData (ui w)
    /\ lastUpdated (ui w') = lastUpdated (ui w)
    /\ selectedLocation (ui w') = selectedLocation (ui w)
    /\ error (ui w') = Some fetchErrorMessage
    /\ fetchErrorMessage <> "".
Proof.
  intros Hwf Hfail.
  destruct (cycle_run w location r1 r2 r3 now Hwf)
    as (w' & Hrun & _ & _ & Hw & Hf & Ha & Hl & He & Hs & _).
  exists w'. split; [exact Hrun|].
  rewrite Hw, Hf, Ha, Hl, He, Hs.
  destruct r1; destruct r2; try discriminate Hfail; cbn;
    repeat split; discriminate.
Qed.

(** X4.  What the code does about the time stamp: a cycle that nothing
    interrupts stamps [lastUpdated] exactly when current conditions and
    forecast arrive and the alerts request is answered, be it with a bad
    status; it then shows no error and stores the alerts of the reply, or
    [null].  In every other case the time stamp and the alerts stay, and
    the error message is set. *)
Theorem cycle_stamps_iff_it_completes
    (w : World) (location : Location)
    (r1 : Response WeatherData) (r2 : Response ForecastData)
    (r3 : Response OneCallData) (now : Z) :
  wf w ->
  exists w',
    run (cycleReplies (List.length (requests w)) r1 r2 r3 now)
        (fetchWeatherData false location w) = Some w'
    /\ loading (ui w') = false
    /\ if isJson r1 && isJson r2 && completes r3
       then lastUpdated (ui w') = Some now
            /\ error (ui w') = None
            /\ alertsData (ui w') =
                 match r3 with
                 | Json body => OneCallData.alerts body
                 | _ => None
                 end
       else lastUpdated (ui w') = lastUpdated (ui w)
            /\ error (ui w') = Some fetchErrorMessage
            /\ alertsData (ui w') = alertsData (ui w).
Proof.
  intros Hwf.
  destruct (cycle_run w location r1 r2 r3 now Hwf)
    as (w' & Hrun & _ & Hload & _ & _ & Ha & Hl & He & _).
  exists w'. split; [exact Hrun|]. split; [exact Hload|].
  rewrite Ha, Hl, He.
  destruct r1; destruct r2; destruct r3; cbn; auto.
Qed.

(** C8, as the code has it.  The reply on alerts is stored with
    [oneCallData.alerts || null].  A body without the field leaves [null]
    in the state, the very value that a reply with a bad status leaves;
    the empty list is stored only for a body whose field is there and
    empty. *)
Theorem absent_alerts_field_is_null
    (w : World) (n : nat) (location : Location) (currentData : WeatherData)
    (now : Z) :
  lookupTask n (pending w) = Some (AwaitOneCall location currentData) ->
  (forall body, OneCallData.alerts body = None ->
     exists w1 w2,
       step (OneCallReply n (Json body) now) w = Some w1
       /\ step (OneCallReply n NotOk now) w = Some w2
       /\ alertsData (ui w1) = None
       /\ alertsData (ui w2) = None)
  /\ (forall body alerts, OneCallData.alerts body = Some alerts ->
       exists w1,
         step (OneCallReply n (Json body) now) w = Some w1
         /\ alertsData (ui w1) = Some alerts).
Proof.
  intros Hl. split.
  - intros body Hb. cbn. rewrite Hl. do 2 eexists.
    split; [reflexivity|]. split; [reflexivity|]. cbn. auto.
  - intros body alerts Hb. cbn. rewrite Hl. eexists.
    split; [reflexivity|]. cbn. exact Hb.
Qed.

(** C9.  The last step of a cycle for [location], the one that follows the
    reply on alerts: the selection on display gets the name of the reply on
    current conditions if its coordinates are those of [location]
    (compared with [===]) and the cycle got through; otherwise it stays as
    it is.  Latitude and longitude stay as they are in every case. *)
Theorem name_reconciled_only_for_same_coordinates
    (w : World) (n : nat) (location : Location) (currentData : WeatherData)
    (r : Response OneCallData) (now : Z) :
  lookupTask n (pending w) = Some (AwaitOneCall location currentData) ->
  exists w',
    step (OneCallReply n r now) w = Some w'
    /\ match selectedLocation (ui w) with
       | None => selectedLocation (ui w') = None
       | Some prev =>
           selectedLocation (ui w') =
           Some (if completes r && sameCoordinates prev location
                 then {| Location.lat := Location.lat prev;
                         Location.lng := Location.lng prev;
                         Location.name :=
                           Some (WeatherData.name currentData) |}
                 else prev)
       end.
Proof.
  intros Hl. cbn. rewrite Hl. eexists. split; [reflexivity|].
  destruct r; cbn; destruct (selectedLocation (ui w)) as [prev|];
    cbn; try reflexivity;
    destruct (sameCoordinates _ _); reflexivity.
Qed.

(** ** Refreshing by hand or by the timer *)

(** As long as no location is selected, none is remembered. *)
Lemma never_selected (es : list Event) (w w' : World) :
  forallb selectsNothing es = true ->
  currentLocationRef (ui w) = None ->
  run es w = Some w' ->
  currentLocationRef (ui w') = None.
Proof.
  revert w. induction es as [|e es IH]; intros w Hall Hn Hrun; cbn in *.
  - now injection Hrun as <-.
  - apply andb_prop in Hall as [He Hes].
    destruct (step e w) as [w1|] eqn:Hs; [|discriminate].
    apply (IH w1 Hes); [|exact Hrun].
    destruct e as [b L|b q|b|n r|n r|n r now|n r]; try discriminate He.
    + cbn in Hs. injection Hs as <-. unfold handleSearch, seq.
      now destruct (encodeURIComponent q).
    + cbn in Hs. injection Hs as <-. unfold handleRefresh. now rewrite Hn.
    + destruct (cycle_reply_frame (CurrentReply n r) w w1 eq_refl Hs)
        as (_ & Hc & _).
      congruence.
    + destruct (cycle_reply_frame (ForecastReply n r) w w1 eq_refl Hs)
        as (_ & Hc & _).
      congruence.
    + destruct (cycle_reply_frame (OneCallReply n r now) w w1 eq_refl Hs)
        as (_ & Hc & _).
      congruence.
    + cbn in Hs.
      destruct (lookupTask n (pending w)) as [[]|]; try discriminate.
      injection Hs as <-.
      destruct r as [| | |[|c cs]]; try discriminate He; exact Hn.
Qed.

(** C6.  After a run in which no location was ever selected, and more
    generally whenever no location is remembered, [handleRefresh] changes
    nothing and asks nothing.  With a remembered location it runs
    [fetchWeatherData] on it and never reads the dedup key: the key is
    left as it is, a different key in the state makes no other difference,
    and a handler that saw [loading = false] opens a cycle for the
    remembered location whatever the key. *)
Theorem refresh_ignores_the_key (w : World) (b : bool) :
  (forall es, forallb selectsNothing es = true ->
              run es initialWorld = Some w -> handleRefresh b w = w)
  /\ (currentLocationRef (ui w) = None -> handleRefresh b w = w)
  /\ (forall location, currentLocationRef (ui w) = Some location ->
       locationKeyRef (ui (handleRefresh b w)) = locationKeyRef (ui w)
       /\ (forall k, handleRefresh b (setLocationKeyRef k w)
                     = setLocationKeyRef k (handleRefresh b w))
       /\ (b = false ->
            requests (handleRefresh b w) =
              requests w ++
              [GetCurrent (Location.lat location) (Location.lng location)]
            /\ pending (handleRefresh b w) =
                 pending w ++
                 [(List.length (requests w), AwaitCurrent location)]
            /\ fetchCycles (handleRefresh b w) = S (fetchCycles w)
            /\ loading (ui (handleRefresh b w)) = true)).
Proof.
  assert (Hnone : currentLocationRef (ui w) = None -> handleRefresh b w = w).
  { intros Hn. unfold handleRefresh. now rewrite Hn. }
  split; [|split; [exact Hnone|]].
  - intros es Hes Hrun. apply Hnone.
    now apply (never_selected es initialWorld w Hes eq_refl).
  - intros location Hl. unfold handleRefresh. cbn. rewrite Hl.
    split; [destruct b; reflexivity|].
    split; [intros k; destruct b; reflexivity|].
    intros ->. repeat split.
    now rewrite (fetchCycles_snoc w _
                   (GetCurrent (Location.lat location)
                               (Location.lng location))).
Qed.

(** ** Searching *)




(** ** The loading flag as a lock *)

Lemma inFlight_pending (w w' : World) :
  pending w' = pending w -> inFlight w' = inFlight w.
Proof. unfold inFlight. now intros ->. Qed.

Lemma inFlight_snoc (w w' : World) (n : nat) (t : Task) :
  pending w' = pending w ++ [(n, t)] ->
  inFlight w' = (if awaitsCycle t then 1 else 0) + inFlight w.
Proof.
  unfold inFlight. intros ->. rewrite filter_app, length_app. cbn.
  destruct (awaitsCycle t); cbn; lia.
Qed.

Lemma inFlight_wake (w : World) (n : nat) (t : Task) :
  lookupTask n (pending w) = Some t ->
  inFlight w = (if awaitsCycle t then 1 else 0) + inFlight (wake n w).
Proof. intros H. unfold inFlight, wake. cbn. now apply removeTask_inFlight. Qed.

Lemma select_inFlight (b : bool) (L : Location) (w : World) :
  inFlight (handleLocationSelect b L w) =
  (if keyDiffers (locationKey L) (locationKeyRef (ui w)) && negb b
   then 1 else 0) + inFlight w.
Proof.
  pose proof (select_pending b L w) as H.
  destruct (keyDiffers _ _ && negb b).
  - now rewrite (inFlight_snoc w _ _ _ H).
  - now rewrite (inFlight_pending w _ H).
Qed.

Lemma refresh_inFlight (b : bool) (w : World) :
  inFlight (handleRefresh b w) =
  (match currentLocationRef (ui w) with
   | Some _ => if b then 0 else 1
   | None => 0
   end) + inFlight w
  /\ loading (ui (handleRefresh b w)) =
     match currentLocationRef (ui w) with
     | Some _ => if b then loading (ui w) else true
     | None => loading (ui w)
     end.
Proof.
  unfold handleRefresh.
  destruct (currentLocationRef (ui w)) as [L|]; [|split; reflexivity].
  destruct b; [split; reflexivity|]. split; [|reflexivity].
  now rewrite (inFlight_snoc w _ (List.length (requests w)) (AwaitCurrent L)).
Qed.

(** The guard of [fetchWeatherData]: called by a render that shows
    [loading = true] it leaves the world as it is. *)
Lemma fetch_is_noop_while_loading (w : World) (location : Location) :
  loading (ui w) = true ->
  fetchWeatherData (loading (ui w)) location w = w.
Proof. intros ->. reflexivity. Qed.

(** How one event moves the number of cycles in flight and the flag. *)
Lemma step_inFlight (e : Event) (w w' : World) :
  step e w = Some w' ->
  match e with
  | LocationSelect b L =>
      inFlight w' =
        (if keyDiffers (locationKey L) (locationKeyRef (ui w)) && negb b
         then 1 else 0) + inFlight w
      /\ loading (ui w') =
         (if keyDiffers (locationKey L) (locationKeyRef (ui w)) && negb b
          then true else loading (ui w))
  | Search _ _ => inFlight w' = inFlight w /\ loading (ui w') = loading (ui w)
  | Refresh b =>
      inFlight w' =
        (match currentLocationRef (ui w) with
         | Some _ => if b then 0 else 1
         | None => 0
         end) + inFlight w
      /\ loading (ui w') =
         match currentLocationRef (ui w) with
         | Some _ => if b then loading (ui w) else true
         | None => loading (ui w)
         end
  | CurrentReply _ r | ForecastReply _ r =>
      if isJson r
      then inFlight w' = inFlight w /\ loading (ui w') = loading (ui w)
      else S (inFlight w') = inFlight w /\ loading (ui w') = false
  | OneCallReply _ _ _ =>
      S (inFlight w') = inFlight w /\ loading (ui w') = false
  | GeocodeReply n r =>
      exists b q, lookupTask n (pending w) = Some (AwaitGeocode b q)
      /\ match r with
         | Json (result :: _) =>
             inFlight w' =
               (if keyDiffers (locationKey (newLocation result))
                              (locationKeyRef (ui w)) && negb b
                then 1 else 0) + inFlight w
             /\ loading (ui w') =
                (if keyDiffers (locationKey (newLocation result))
                               (locationKeyRef (ui w)) && negb b
                 then true else loading (ui w))
         | _ => inFlight w' = inFlight w /\ loading (ui w') = loading (ui w)
         end
  end.
Proof.
  destruct e as [b L|b q|b|n r|n r|n r now|n r]; cbn [step].
  - intros [= <-]. split; [apply select_inFlight|apply select_loading].
  - intros [= <-]. unfold handleSearch, seq.
    destruct (encodeURIComponent q) as [q'|]; (split; [|reflexivity]).
    + now rewrite (inFlight_snoc w _ (List.length (requests w))
                     (AwaitGeocode b q)).
    + apply inFlight_pending; reflexivity.
  - intros [= <-]. apply refresh_inFlight.
  - destruct (lookupTask n (pending w)) as [[L| | |]|] eqn:Hl;
      try discriminate.
    intros [= <-]. rewrite (inFlight_wake w n _ Hl). unfold seq.
    cbn [awaitsCycle Nat.add].
    destruct r as [| | |d]; cbn [isJson]; (split; [|reflexivity]).
    1-3: f_equal; apply inFlight_pending; reflexivity.
    now rewrite (inFlight_snoc (wake n w) _
                   (List.length (requests w)) (AwaitForecast L d)).
  - destruct (lookupTask n (pending w)) as [[|L d| |]|] eqn:Hl;
      try discriminate.
    intros [= <-]. rewrite (inFlight_wake w n _ Hl). unfold seq.
    cbn [awaitsCycle Nat.add].
    destruct r as [| | |f]; cbn [isJson]; (split; [|reflexivity]).
    1-3: f_equal; apply inFlight_pending; reflexivity.
    now rewrite (inFlight_snoc (wake n w) _
                   (List.length (requests w)) (AwaitOneCall L d)).
  - destruct (lookupTask n (pending w)) as [[| |L d|]|] eqn:Hl;
      try discriminate.
    intros [= <-]. rewrite (inFlight_wake w n _ Hl). unfold seq.
    cbn [awaitsCycle Nat.add].
    destruct r; (split; [|reflexivity]);
      f_equal; apply inFlight_pending; reflexivity.
  - destruct (lookupTask n (pending w)) as [[| | |b q]|] eqn:Hl;
      try discriminate.
    intros [= <-]. exists b, q. split; [reflexivity|].
    pose proof (inFlight_wake w n _ Hl) as Hw. cbn [awaitsCycle] in Hw.
    unfold seq.
    destruct r as [| | |[|result rest]];
      try (split; [rewrite Hw; apply inFlight_pending|]; reflexivity).
    unfold resumeGeocode, seq.
    set (v := setSearchedLocation (Some (newLocation result)) (wake n w)).
    split.
    + rewrite (inFlight_pending
                 (handleLocationSelect b (newLocation result) v));
        [|reflexivity].
      rewrite select_inFlight. rewrite Hw. reflexivity.
    + change (loading (ui (setIsSearching false
                             (handleLocationSelect b (newLocation result) v))))
        with (loading (ui (handleLocationSelect b (newLocation result) v))).
      rewrite select_loading. reflexivity.
Qed.

(** X2.  A cycle that ends, with or without success, leaves
    [loading = false]: whenever an event takes a cycle out of flight, the
    flag is down. *)
Lemma cycle_end_resets_loading (e : Event) (w w' : World) :
  step e w = Some w' ->
  inFlight w' < inFlight w ->
  loading (ui w') = false.
Proof.
  intros Hs Hlt. pose proof (step_inFlight e w w' Hs) as H.
  destruct e as [b L|b q|b|n r|n r|n r now|n r].
  - destruct H as [H _]. lia.
  - destruct H as [H _]. lia.
  - destruct H as [H _]. lia.
  - destruct (isJson r); destruct H as [H H']; [lia|exact H'].
  - destruct (isJson r); destruct H as [H H']; [lia|exact H'].
  - apply H.
  - destruct H as (b & q & _ & H).
    destruct r as [| | |[|result rest]]; destruct H as [H _]; lia.
Qed.

Lemma flag_step (e : Event) (w w' : World) :
  flagTracksCycle w ->
  seesCurrentLoading e w ->
  step e w = Some w' ->
  flagTracksCycle w'.
Proof.
  unfold flagTracksCycle. intros Hf Hsee Hs.
  pose proof (step_inFlight e w w' Hs) as H.
  destruct e as [b L|b q|b|n r|n r|n r now|n r]; cbn in Hsee.
  - destruct H as [-> ->]. subst b.
    destruct (keyDiffers _ _), (loading (ui w)); cbn; lia.
  - destruct H as [-> ->]. exact Hf.
  - destruct H as [-> ->]. subst b.
    destruct (currentLocationRef (ui w)), (loading (ui w)); cbn; lia.
  - destruct (isJson r); destruct H as [H ->]; [now rewrite H|].
    destruct (loading (ui w)); lia.
  - destruct (isJson r); destruct H as [H ->]; [now rewrite H|].
    destruct (loading (ui w)); lia.
  - destruct H as [H ->]. destruct (loading (ui w)); lia.
  - destruct H as (b & q & Hl & H). rewrite Hl in Hsee. subst b.
    destruct r as [| | |[|result rest]]; destruct H as [-> ->];
      try exact Hf.
    destruct (keyDiffers _ _), (loading (ui w)); cbn; lia.
Qed.

(** X1.  As long as every handler reads an up-to-date [loading], the flag
    tells whether a cycle is in flight, and at most one is. *)
Lemma one_cycle_at_a_time (es : list Event) (w w' : World) :
  flagTracksCycle w ->
  allSeeCurrentLoading es w ->
  run es w = Some w' ->
  flagTracksCycle w' /\ inFlight w' <= 1.
Proof.
  revert w. induction es as [|e es IH]; intros w Hf Hsee Hrun; cbn in *.
  - injection Hrun as <-. split; [exact Hf|].
    unfold flagTracksCycle in Hf. destruct (loading (ui w)); lia.
  - destruct Hsee as [He Hrest].
    destruct (step e w) as [w1|] eqn:Hs; [|discriminate].
    apply (IH w1); auto. eapply flag_step; eauto.
Qed.

End Properties.

(** * Concrete runs

    The theorems above at particular inputs, with the builtins of a
    conforming engine. *)

Example paris_key :
  locationKey (B := ecma) Sample.paris = "48.8566,2.3522".
Proof. vm_compute. reflexivity. Qed.

Example london_key :
  locationKey (B := ecma) Sample.london = "51.5074,-0.1278".
Proof. vm_compute. reflexivity. Qed.

Example nearby_key :
  locationKey (B := ecma) Sample.parisNearby = "48.8566,2.3522"
  /\ sameCoordinates Sample.parisNearby Sample.paris = false.
Proof. vm_compute. auto. Qed.

Example geocoded_paris :
  newLocation (B := ecma) Sample.parisCandidate = Sample.parisFound.
Proof. vm_compute. reflexivity. Qed.

(** [toFixed] rounds the magnitude and keeps the sign: the key tells a
    point just south of the equator from one just north of it. *)
Example toFixed_keeps_sign_of_small_negative :
  Ecma.toFixed (Ecma.parseFloat "-0.00001") 4 = "-0.0000"
  /\ Ecma.toFixed (Ecma.parseFloat "0.00001") 4 = "0.0000".
Proof. vm_compute. auto. Qed.

Example settled_world :
  run (B := ecma) Sample.firstVisit initialWorld = Some Sample.settled
  /\ wf Sample.settled
  /\ loading (ui Sample.settled) = false
  /\ weatherData (ui Sample.settled) = Some Sample.sunny
  /\ forecastData (ui Sample.settled) = Some Sample.outlook
  /\ alertsData (ui Sample.settled) = Some [Sample.storm]
  /\ lastUpdated (ui Sample.settled) = Some Sample.noon
  /\ selectedLocation (ui Sample.settled) = Some Sample.parisFound
  /\ List.length (requests Sample.settled) = 3.
Proof.
  assert (H : run (B := ecma) Sample.firstVisit initialWorld
              = Some Sample.settled) by (vm_compute; reflexivity).
  split; [exact H|]. split; [exact (wf_run _ _ _ wf_initial H)|].
  vm_compute. repeat split.
Qed.

(** Where the key and the rounding meet: two finite numbers below [10^21]
    of the same sign that are equal when rounded to four decimal places
    print the same with [toFixed(4)].  The sign is that of the number
    itself, not of what it rounds to. *)
Lemma toFixed_same_rounding (s : bool) (m1 m2 : positive) (e1 e2 : Z) :
  Ecma.atLeast1e21 m1 e1 = false ->
  Ecma.atLeast1e21 m2 e2 = false ->
  sameRounded (S754_finite s m1 e1) (S754_finite s m2 e2) = true ->
  Ecma.toFixed (S754_finite s m1 e1) 4 = Ecma.toFixed (S754_finite s m2 e2) 4.
Proof.
  intros H1 H2 Hr. unfold sameRounded, roundedTo4 in Hr.
  apply Z.eqb_eq in Hr.
  assert (E : Ecma.scaled m1 e1 4 = Ecma.scaled m2 e2 4)
    by (destruct s; lia).
  unfold Ecma.toFixed. now rewrite H1, H2, E.
Qed.

(** C1 fails on the code as the claim words it.  Two clicks a couple of
    metres apart across the equator, the second one made when the weather
    of the first is on display: the coordinates are equal when rounded to
    four decimal places, but [toFixed] keeps the sign of the latitude that
    rounds to zero, the keys differ, and the second click opens a second
    cycle. *)
Lemma select_same_rounding_fetches_twice :
  equalAt4Decimals Tour.justNorth Tour.justSouth = true
  /\ locationKey (B := ecma) Tour.justNorth = "0.0000,10.0000"
  /\ locationKey (B := ecma) Tour.justSouth = "-0.0000,10.0000"
  /\ exists w1,
       run (B := ecma) Tour.northLoads
         (handleLocationSelect (B := ecma) false Tour.justNorth initialWorld)
       = Some w1
       /\ forallb isCycleReply Tour.northLoads = true
       /\ loading (ui w1) = false
       /\ (let w2 := handleLocationSelect (B := ecma) (loading (ui w1))
                       Tour.justSouth w1 in
           fetchCycles w2 = 2
           /\ requests w2 =
                requests w1
                ++ [GetCurrent (Location.lat Tour.justSouth)
                               (Location.lng Tour.justSouth)]
           /\ inFlight w2 = 1
           /\ selectedLocation (ui w2) = Some Tour.justSouth).
Proof.
  split; [vm_compute; reflexivity|].
  split; [vm_compute; reflexivity|].
  split; [vm_compute; reflexivity|].
  exists (Sample.worldAfter Tour.northLoads
            (handleLocationSelect (B := ecma) false Tour.justNorth
               initialWorld)).
  split; [vm_compute; reflexivity|].
  split; [reflexivity|].
  split; [vm_compute; reflexivity|].
  vm_compute. repeat split.
Qed.

(** C1, amended, at two clicks on Paris a few metres apart, the second one
    made after the first reply, by the render that shows the spinner. *)
Lemma select_same_key_fetches_at_most_once_witness :
  locationKey (B := ecma) Sample.paris
    = locationKey (B := ecma) Sample.parisNearby
  /\ forallb isCycleReply [CurrentReply 0 (Json Sample.sunny)] = true
  /\ run (B := ecma) [CurrentReply 0 (Json Sample.sunny)]
       (handleLocationSelect (B := ecma) false Sample.paris initialWorld)
     = Some Sample.firstReplyIn
  /\ (let w2 := handleLocationSelect (B := ecma) true Sample.parisNearby
                  Sample.firstReplyIn in
      fetchCycles w2 =
        fetchCycles initialWorld
        + (if keyDiffers (locationKey (B := ecma) Sample.paris)
                (locationKeyRef (ui initialWorld)) && negb false
           then 1 else 0)
      /\ requests w2 = requests Sample.firstReplyIn
      /\ pending w2 = pending Sample.firstReplyIn
      /\ selectedLocation (ui w2) = Some Sample.parisNearby).
Proof.
  assert (Hk : locationKey (B := ecma) Sample.paris
               = locationKey (B := ecma) Sample.parisNearby)
    by (vm_compute; reflexivity).
  assert (Hr : run (B := ecma) [CurrentReply 0 (Json Sample.sunny)]
                 (handleLocationSelect (B := ecma) false Sample.paris
                    initialWorld)
               = Some Sample.firstReplyIn)
    by (vm_compute; reflexivity).
  split; [exact Hk|]. split; [reflexivity|].
  split; [exact Hr|].
  exact (select_same_key_fetches_at_most_once (B := ecma) initialWorld
           false true Sample.paris Sample.parisNearby
           [CurrentReply 0 (Json Sample.sunny)] Sample.firstReplyIn
           Hk eq_refl Hr).
Defined.

(** C2 fails on the code: a click on London while the cycle for Paris is
    in flight, handled by the latest render, opens no second cycle. *)
Lemma select_other_key_while_loading_fetches_once :
  exists w,
    run (B := ecma)
      [LocationSelect false Sample.paris; LocationSelect true Sample.london]
      initialWorld = Some w
    /\ allSeeCurrentLoading (B := ecma)
         [LocationSelect false Sample.paris; LocationSelect true Sample.london]
         initialWorld
    /\ locationKey (B := ecma) Sample.paris
       <> locationKey (B := ecma) Sample.london
    /\ fetchCycles w = 1
    /\ requests w
       = [GetCurrent (Location.lat Sample.paris) (Location.lng Sample.paris)]
    /\ locationKeyRef (ui w) = Some "51.5074,-0.1278".
Proof.
  exists (Sample.worldAfter
            [LocationSelect false Sample.paris;
             LocationSelect true Sample.london]
            initialWorld).
  split; [vm_compute; reflexivity|].
  split; [vm_compute; auto|].
  split; [rewrite paris_key, london_key; discriminate|].
  vm_compute. auto.
Qed.

(** C2, amended, at Paris and then London once the cycle for Paris is
    through: two cycles. *)
Lemma select_other_key_fetches_unless_loading_witness :
  locationKey (B := ecma) Sample.paris
    <> locationKey (B := ecma) Sample.london
  /\ locationKeyRef (ui initialWorld)
     <> Some (locationKey (B := ecma) Sample.paris)
  /\ forallb isCycleReply (tl Sample.firstVisit) = true
  /\ run (B := ecma) (tl Sample.firstVisit)
       (handleLocationSelect (B := ecma) false Sample.paris initialWorld)
     = Some Sample.settled
  /\ (let w2 := handleLocationSelect (B := ecma) false Sample.london
                  Sample.settled in
      fetchCycles w2 = (if false then 1 else 2) + fetchCycles initialWorld
      /\ locationKeyRef (ui w2) = Some (locationKey (B := ecma) Sample.london)
      /\ selectedLocation (ui w2) = Some Sample.london
      /\ (tl Sample.firstVisit = [] -> loading (ui Sample.settled) = true)).
Proof.
  assert (Hk : locationKey (B := ecma) Sample.paris
               <> locationKey (B := ecma) Sample.london)
    by (rewrite paris_key, london_key; discriminate).
  assert (Hn : locationKeyRef (ui initialWorld)
               <> Some (locationKey (B := ecma) Sample.paris))
    by discriminate.
  assert (Hr : run (B := ecma) (tl Sample.firstVisit)
                 (handleLocationSelect (B := ecma) false Sample.paris
                    initialWorld)
               = Some Sample.settled)
    by (vm_compute; reflexivity).
  split; [exact Hk|]. split; [exact Hn|]. split; [reflexivity|].
  split; [exact Hr|].
  exact (select_other_key_fetches_unless_loading (B := ecma) initialWorld
           false Sample.paris Sample.london (tl Sample.firstVisit)
           Sample.settled Hk Hn eq_refl Hr).
Defined.


(** C3 fails on the code: the settled view is refreshed, current
    conditions arrive, the forecast request fails; the snapshot on display
    before the cycle is gone. *)
Lemma failed_forecast_replaces_snapshot :
  exists w,
    run (B := ecma) Sample.failingRefresh Sample.settled = Some w
    /\ weatherData (ui Sample.settled) = Some Sample.sunny
    /\ weatherData (ui w) = Some Sample.rainy
    /\ Sample.rainy <> Sample.sunny
    /\ forecastData (ui w) = forecastData (ui Sample.settled)
    /\ error (ui w) = Some fetchErrorMessage.
Proof.
  exists (Sample.worldAfter Sample.failingRefresh Sample.settled).
  split; [vm_compute; reflexivity|].
  split; [vm_compute; reflexivity|].
  split; [vm_compute; reflexivity|].
  split; [discriminate|].
  vm_compute. auto.
Qed.

(** C3, amended, at that refresh. *)
Lemma failed_cycle_keeps_what_was_not_fetched_witness :
  wf Sample.settled
  /\ isJson (Json Sample.rainy) && isJson (@NetworkError ForecastData) = false
  /\ exists w',
       run (B := ecma)
         (cycleReplies (List.length (requests Sample.settled))
            (Json Sample.rainy) NetworkError NotOk Sample.later)
         (fetchWeatherData false Sample.paris Sample.settled) = Some w'
       /\ weatherData (ui w') =
            match Json Sample.rainy with
            | Json currentData => Some currentData
            | _ => weatherData (ui Sample.settled)
            end
       /\ forecastData (ui w') = forecastData (ui Sample.settled)
       /\ alertsData (ui w') = alertsData (ui Sample.settled)
       /\ lastUpdated (ui w') = lastUpdated (ui Sample.settled)
       /\ selectedLocation (ui w') = selectedLocation (ui Sample.settled)
       /\ error (ui w') = Some fetchErrorMessage
       /\ fetchErrorMessage <> "".
Proof.
  pose proof settled_world as (_ & Hwf & _).
  split; [exact Hwf|]. split; [reflexivity|].
  exact (failed_cycle_keeps_what_was_not_fetched (B := ecma) Sample.settled
           Sample.paris (Json Sample.rainy) NetworkError NotOk Sample.later
           Hwf eq_refl).
Defined.

(** C8 fails on the code: a body without [alerts] and a reply with a bad
    status leave the same value, [null]; the empty list is something else. *)
Lemma absent_alerts_field_equals_failed_call :
  exists wa wb we,
    run (B := ecma) Sample.untilForecast initialWorld = Some Sample.forecastIn
    /\ step (B := ecma)
         (OneCallReply 2 (Json {| OneCallData.alerts := None |}) Sample.noon)
         Sample.forecastIn = Some wa
    /\ step (B := ecma) (OneCallReply 2 NotOk Sample.noon)
         Sample.forecastIn = Some wb
    /\ step (B := ecma)
         (OneCallReply 2 (Json {| OneCallData.alerts := Some [] |}) Sample.noon)
         Sample.forecastIn = Some we
    /\ alertsData (ui wa) = None
    /\ alertsData (ui wb) = None
    /\ alertsData (ui we) = Some []
    /\ error (ui wa) = None
    /\ error (ui wb) = None.
Proof.
  exists (Sample.worldAfter
            [OneCallReply 2 (Json {| OneCallData.alerts := None |}) Sample.noon]
            Sample.forecastIn),
         (Sample.worldAfter [OneCallReply 2 NotOk Sample.noon]
            Sample.forecastIn),
         (Sample.worldAfter
            [OneCallReply 2 (Json {| OneCallData.alerts := Some [] |})
               Sample.noon]
            Sample.forecastIn).
  split; [vm_compute; reflexivity|].
  split; [vm_compute; reflexivity|].
  split; [vm_compute; reflexivity|].
  split; [vm_compute; reflexivity|].
  vm_compute. repeat split.
Qed.

Example alerts_task_parked :
  lookupTask 2 (pending Sample.forecastIn)
  = Some (AwaitOneCall Sample.paris Sample.sunny).
Proof. vm_compute. reflexivity. Qed.

(** C8, amended, at the cycle for Paris waiting for its alerts. *)
Lemma absent_alerts_field_is_null_witness :
  lookupTask 2 (pending Sample.forecastIn)
    = Some (AwaitOneCall Sample.paris Sample.sunny)
  /\ (forall body, OneCallData.alerts body = None ->
       exists w1 w2,
         step (B := ecma) (OneCallReply 2 (Json body) Sample.noon)
           Sample.forecastIn = Some w1
         /\ step (B := ecma) (OneCallReply 2 NotOk Sample.noon)
              Sample.forecastIn = Some w2
         /\ alertsData (ui w1) = None
         /\ alertsData (ui w2) = None)
  /\ (forall body alerts, OneCallData.alerts body = Some alerts ->
       exists w1,
         step (B := ecma) (OneCallReply 2 (Json body) Sample.noon)
           Sample.forecastIn = Some w1
         /\ alertsData (ui w1) = Some alerts).
Proof.
  split; [exact alerts_task_parked|].
  exact (absent_alerts_field_is_null (B := ecma) Sample.forecastIn 2
           Sample.paris Sample.sunny Sample.noon alerts_task_parked).
Defined.

(** C9 at the same point: the selection is still the click on Paris, and
    gets the name of the reply. *)
Lemma name_reconciled_only_for_same_coordinates_witness :
  lookupTask 2 (pending Sample.forecastIn)
    = Some (AwaitOneCall Sample.paris Sample.sunny)
  /\ exists w',
       step (B := ecma) (OneCallReply 2 NotOk Sample.noon) Sample.forecastIn
         = Some w'
       /\ match selectedLocation (ui Sample.forecastIn) with
          | None => selectedLocation (ui w') = None
          | Some prev =>
              selectedLocation (ui w') =
              Some (if completes NotOk && sameCoordinates prev Sample.paris
                    then {| Location.lat := Location.lat prev;
                            Location.lng := Location.lng prev;
                            Location.name :=
                              Some (WeatherData.name Sample.sunny) |}
                    else prev)
          end.
Proof.
  split; [exact alerts_task_parked|].
  exact (name_reconciled_only_for_same_coordinates (B := ecma)
           Sample.forecastIn 2 Sample.paris Sample.sunny NotOk Sample.noon
           alerts_task_parked).
Defined.

(** Both branches of the reconciliation, run: the click on Paris gets its
    name; a selection that moved in the meantime keeps its own. *)
Example reconciliation_runs :
  selectedLocation (ui Sample.settled) = Some Sample.parisFound
  /\ selectedLocation
       (ui (Sample.worldAfter Sample.movedMeanwhile initialWorld))
     = Some Sample.parisNearby
  /\ run (B := ecma) Sample.movedMeanwhile initialWorld
     = Some (Sample.worldAfter Sample.movedMeanwhile initialWorld).
Proof. vm_compute. repeat split. Qed.

(** C6 after a search that found nothing, and on the settled view, whose
    key is that of the remembered location. *)
Lemma refresh_ignores_the_key_witness :
  forallb selectsNothing Sample.fruitlessSearch = true
  /\ run (B := ecma) Sample.fruitlessSearch initialWorld
     = Some (Sample.worldAfter Sample.fruitlessSearch initialWorld)
  /\ handleRefresh false (Sample.worldAfter Sample.fruitlessSearch initialWorld)
     = Sample.worldAfter Sample.fruitlessSearch initialWorld
  /\ currentLocationRef (ui Sample.settled) = Some Sample.paris
  /\ locationKeyRef (ui Sample.settled)
     = Some (locationKey (B := ecma) Sample.paris)
  /\ (locationKeyRef (ui (handleRefresh false Sample.settled))
       = locationKeyRef (ui Sample.settled)
      /\ (forall k, handleRefresh false (setLocationKeyRef k Sample.settled)
                    = setLocationKeyRef k (handleRefresh false Sample.settled))
      /\ (false = false ->
           requests (handleRefresh false Sample.settled) =
             requests Sample.settled ++
             [GetCurrent (Location.lat Sample.paris)
                         (Location.lng Sample.paris)]
           /\ pending (handleRefresh false Sample.settled) =
                pending Sample.settled ++
                [(List.length (requests Sample.settled),
                  AwaitCurrent Sample.paris)]
           /\ fetchCycles (handleRefresh false Sample.settled)
              = S (fetchCycles Sample.settled)
           /\ loading (ui (handleRefresh false Sample.settled)) = true)).
Proof.
  assert (Hr : run (B := ecma) Sample.fruitlessSearch initialWorld
               = Some (Sample.worldAfter Sample.fruitlessSearch initialWorld))
    by (vm_compute; reflexivity).
  assert (Hc : currentLocationRef (ui Sample.settled) = Some Sample.paris)
    by (vm_compute; reflexivity).
  split; [reflexivity|]. split; [exact Hr|].
  split.
  { exact (proj1 (refresh_ignores_the_key (B := ecma)
                    (Sample.worldAfter Sample.fruitlessSearch initialWorld)
                    false)
             Sample.fruitlessSearch eq_refl Hr). }
  split; [exact Hc|].
  split; [vm_compute; reflexivity|].
  exact (proj2 (proj2 (refresh_ignores_the_key (B := ecma) Sample.settled
                         false))
           Sample.paris Hc).
Defined.


Example search_for_paris_runs :
  exists w,
    run (B := ecma)
      [Search false "Paris"; GeocodeReply 0 (Json [Sample.parisCandidate])]
      initialWorld = Some w
    /\ selectedLocation (ui w) = Some Sample.parisFound
    /\ locationKeyRef (ui w) = Some "48.8566,2.3522"
    /\ requests w
       = [GetGeocode "Paris";
          GetCurrent (Location.lat Sample.paris) (Location.lng Sample.paris)]
    /\ fetchCycles w = 1.
Proof.
  exists (Sample.worldAfter
            [Search false "Paris";
             GeocodeReply 0 (Json [Sample.parisCandidate])]
            initialWorld).
  vm_compute. repeat split.
Qed.

(** C4 on the code: the rest of [handleSearch] reads the [loading] of the
    render that started the search.  A cycle opened in the meantime does
    not stop it: two cycles are in flight. *)
Lemma search_reply_starts_second_cycle :
  exists w,
    run (B := ecma) Sample.clickDuringSearch initialWorld = Some w
    /\ inFlight w = 2
    /\ fetchCycles w = 2
    /\ loading (ui w) = true
    /\ pending w = [(1, AwaitCurrent Sample.london);
                    (2, AwaitCurrent Sample.parisFound)]
    /\ seesCurrentLoading (Search false "Paris") initialWorld
    /\ seesCurrentLoading (LocationSelect false Sample.london)
         Sample.searching.
Proof.
  exists (Sample.worldAfter Sample.clickDuringSearch initialWorld).
  vm_compute. repeat split.
Qed.

(** C5 on the code: current conditions and forecast arrive, the request
    for alerts is rejected by the network.  The cycle ends in the [catch]:
    no time stamp, the error message, and the alerts of the cycle before. *)
Lemma rejected_alerts_request_fails_cycle :
  exists w,
    run (B := ecma) Sample.alertsRejected Sample.settled = Some w
    /\ weatherData (ui w) = Some Sample.rainy
    /\ forecastData (ui w) = Some Sample.outlook
    /\ lastUpdated (ui Sample.settled) = Some Sample.noon
    /\ lastUpdated (ui w) = Some Sample.noon
    /\ error (ui w) = Some fetchErrorMessage
    /\ alertsData (ui w) = Some [Sample.storm]
    /\ loading (ui w) = false.
Proof.
  exists (Sample.worldAfter Sample.alertsRejected Sample.settled).
  vm_compute. repeat split.
Qed.

(** The guard at work: a fetch asked for by the render that shows the
    spinner changes nothing. *)
Lemma fetch_is_noop_while_loading_witness :
  loading (ui Sample.clicked) = true
  /\ fetchWeatherData (loading (ui Sample.clicked)) Sample.london
       Sample.clicked = Sample.clicked.
Proof.
  split; [reflexivity|].
  exact (fetch_is_noop_while_loading Sample.clicked Sample.london eq_refl).
Defined.

(** A cycle that ends at its first reply. *)
Lemma cycle_end_resets_loading_witness :
  step (B := ecma) (CurrentReply 0 NetworkError) Sample.clicked
    = Some (Sample.worldAfter [CurrentReply 0 NetworkError] Sample.clicked)
  /\ inFlight (Sample.worldAfter [CurrentReply 0 NetworkError] Sample.clicked)
     < inFlight Sample.clicked
  /\ loading
       (ui (Sample.worldAfter [CurrentReply 0 NetworkError] Sample.clicked))
     = false.
Proof.
  assert (Hs : step (B := ecma) (CurrentReply 0 NetworkError) Sample.clicked
               = Some (Sample.worldAfter [CurrentReply 0 NetworkError]
                         Sample.clicked))
    by (vm_compute; reflexivity).
  assert (Hlt : inFlight (Sample.worldAfter [CurrentReply 0 NetworkError]
                            Sample.clicked)
                < inFlight Sample.clicked)
    by (vm_compute; lia).
  split; [exact Hs|]. split; [exact Hlt|].
  exact (cycle_end_resets_loading (B := ecma) _ _ _ Hs Hlt).
Defined.

(** The first visit, every handler of which belongs to the latest render. *)
Lemma one_cycle_at_a_time_witness :
  flagTracksCycle initialWorld
  /\ allSeeCurrentLoading (B := ecma) Sample.firstVisit initialWorld
  /\ run (B := ecma) Sample.firstVisit initialWorld = Some Sample.settled
  /\ (flagTracksCycle Sample.settled /\ inFlight Sample.settled <= 1).
Proof.
  assert (Hf : flagTracksCycle initialWorld) by reflexivity.
  assert (Ha : allSeeCurrentLoading (B := ecma) Sample.firstVisit initialWorld)
    by (vm_compute; auto).
  assert (Hr : run (B := ecma) Sample.firstVisit initialWorld
               = Some Sample.settled)
    by (vm_compute; reflexivity).
  split; [exact Hf|]. split; [exact Ha|]. split; [exact Hr|].
  exact (one_cycle_at_a_time (B := ecma) Sample.firstVisit initialWorld
           Sample.settled Hf Ha Hr).
Defined.

(** The settled view refreshed, the alerts request answered with a bad
    status: the cycle completes. *)
Lemma cycle_stamps_iff_it_completes_witness :
  wf Sample.settled
  /\ exists w',
       run (B := ecma)
         (cycleReplies (List.length (requests Sample.settled))
            (Json Sample.rainy) (Json Sample.outlook) NotOk Sample.later)
         (fetchWeatherData false Sample.paris Sample.settled) = Some w'
       /\ loading (ui w') = false
       /\ if isJson (Json Sample.rainy) && isJson (Json Sample.outlook)
             && completes NotOk
          then lastUpdated (ui w') = Some Sample.later
               /\ error (ui w') = None
               /\ alertsData (ui w') =
                    match @NotOk OneCallData with
                    | Json body => OneCallData.alerts body
                    | _ => None
                    end
          else lastUpdated (ui w') = lastUpdated (ui Sample.settled)
               /\ error (ui w') = Some fetchErrorMessage
               /\ alertsData (ui w') = alertsData (ui Sample.settled).
Proof.
  pose proof settled_world as (_ & Hwf & _).
  split; [exact Hwf|].
  exact (cycle_stamps_iff_it_completes (B := ecma) Sample.settled Sample.paris
           (Json Sample.rainy) (Json Sample.outlook) NotOk Sample.later Hwf).
Defined.

(** * The rest of the component

    The refs as a whole, the page that is rendered, and what a user can
    and cannot bring about through it. *)

Section Component.
Context {B : Builtins}.

(** ** The refs and the selection *)

Lemma select_dataFetched (b : bool) (L : Location) (w : World) :
  dataFetchedRef (ui (handleLocationSelect b L w)) =
  if keyDiffers (locationKey L) (locationKeyRef (ui w))
  then true else dataFetchedRef (ui w).
Proof.
  unfold handleLocationSelect. cbn.
  destruct (keyDiffers _ _); [destruct b|]; reflexivity.
Qed.

Lemma refsAgree_select (b : bool) (L : Location) (w : World) :
  refsAgree w -> refsAgree (handleLocationSelect b L w).
Proof.
  intros (Hk & _ & _ & Hd). unfold refsAgree.
  rewrite select_key, select_currentRef, select_selected, select_dataFetched.
  repeat split.
  destruct (keyDiffers _ _) eqn:E; [reflexivity|].
  apply keyDiffers_false in E. rewrite E in Hk. rewrite Hd.
  destruct (currentLocationRef (ui w)); [reflexivity|discriminate].
Qed.

(** [refsAgree] reads four cells of the state only. *)
Lemma refsAgree_cells (w v : World) :
  locationKeyRef (ui v) = locationKeyRef (ui w) ->
  currentLocationRef (ui v) = currentLocationRef (ui w) ->
  option_map Location.lat (selectedLocation (ui v))
    = option_map Location.lat (selectedLocation (ui w)) ->
  option_map Location.lng (selectedLocation (ui v))
    = option_map Location.lng (selectedLocation (ui w)) ->
  dataFetchedRef (ui v) = dataFetchedRef (ui w) ->
  refsAgree w -> refsAgree v.
Proof.
  unfold refsAgree. intros -> -> -> -> ->. exact (fun H => H).
Qed.

Lemma reconcileName_lat (L : Location) (d : WeatherData)
    (prev : option Location) :
  option_map Location.lat (reconcileName L d prev)
    = option_map Location.lat prev
  /\ option_map Location.lng (reconcileName L d prev)
     = option_map Location.lng prev.
Proof.
  destruct prev as [p|]; cbn; [|auto].
  destruct (sameCoordinates p L); cbn; auto.
Qed.

(** A reply to a cycle leaves the refs alone and the selection where it
    is on the map. *)
Lemma cycle_reply_cells (e : Event) (w w' : World) :
  isCycleReply e = true ->
  step e w = Some w' ->
  option_map Location.lat (selectedLocation (ui w'))
    = option_map Location.lat (selectedLocation (ui w))
  /\ option_map Location.lng (selectedLocation (ui w'))
     = option_map Location.lng (selectedLocation (ui w))
  /\ dataFetchedRef (ui w') = dataFetchedRef (ui w)
  /\ activeTab (ui w') = activeTab (ui w)
  /\ searchedLocation (ui w') = searchedLocation (ui w).
Proof.
  destruct e as [| | |n r|n r|n r now|]; try discriminate; intros _; cbn;
    destruct (lookupTask n (pending w)) as [[]|]; try discriminate;
    intros [= <-]; destruct r; cbn; auto;
    destruct (reconcileName_lat location currentData
                (selectedLocation (ui w))) as [Ha Hb];
    auto.
Qed.

Lemma coherent_step (e : Event) (w w' : World) :
  coherent w -> step e w = Some w' -> coherent w'.
Proof.
  intros [Hr Hg] Hs.
  destruct e as [b L|b q|b|n r|n r|n r now|n r].
  - cbn in Hs. injection Hs as <-. split; [now apply refsAgree_select|].
    intros Hn. now rewrite select_currentRef in Hn.
  - cbn in Hs. injection Hs as <-. unfold handleSearch, seq.
    destruct (encodeURIComponent q) as [q'|]; split;
      try (now apply (refsAgree_cells w));
      intros Hn; destruct (Hg Hn) as [Hw Hi]; (split; [exact Hw|]).
    + now rewrite (inFlight_snoc w _ (List.length (requests w))
                     (AwaitGeocode b q)).
    + rewrite <- Hi. apply inFlight_pending; reflexivity.
  - cbn in Hs. injection Hs as <-. unfold handleRefresh.
    destruct (currentLocationRef (ui w)) as [L|] eqn:Hc; [|now split].
    split.
    + destruct Hr as (Hk & Ha & Hb & _). unfold refsAgree.
      destruct b; cbn; rewrite Hc; rewrite Hc in Hk, Ha, Hb; auto.
    + intros Hn. destruct b; cbn in Hn; congruence.
  - destruct (cycle_reply_frame (CurrentReply n r) w w' eq_refl Hs) as (Hk & Hc & _).
    destruct (cycle_reply_cells (CurrentReply n r) w w' eq_refl Hs) as (Ha & Hb & Hd & _).
    split; [now apply (refsAgree_cells w)|].
    intros Hn. rewrite Hc in Hn. destruct (Hg Hn) as [_ Hi].
    cbn in Hs.
    destruct (lookupTask n (pending w)) as [[]|] eqn:Hl; try discriminate.
    pose proof (inFlight_wake w n _ Hl) as Hw. cbn in Hw. lia.
  - destruct (cycle_reply_frame (ForecastReply n r) w w' eq_refl Hs) as (Hk & Hc & _).
    destruct (cycle_reply_cells (ForecastReply n r) w w' eq_refl Hs) as (Ha & Hb & Hd & _).
    split; [now apply (refsAgree_cells w)|].
    intros Hn. rewrite Hc in Hn. destruct (Hg Hn) as [_ Hi].
    cbn in Hs.
    destruct (lookupTask n (pending w)) as [[]|] eqn:Hl; try discriminate.
    pose proof (inFlight_wake w n _ Hl) as Hw. cbn in Hw. lia.
  - destruct (cycle_reply_frame (OneCallReply n r now) w w' eq_refl Hs) as (Hk & Hc & _).
    destruct (cycle_reply_cells (OneCallReply n r now) w w' eq_refl Hs) as (Ha & Hb & Hd & _).
    split; [now apply (refsAgree_cells w)|].
    intros Hn. rewrite Hc in Hn. destruct (Hg Hn) as [_ Hi].
    cbn in Hs.
    destruct (lookupTask n (pending w)) as [[]|] eqn:Hl; try discriminate.
    pose proof (inFlight_wake w n _ Hl) as Hw. cbn in Hw. lia.
  - cbn in Hs.
    destruct (lookupTask n (pending w)) as [[| | |b q]|] eqn:Hl;
      try discriminate.
    injection Hs as <-.
    pose proof (inFlight_wake w n _ Hl) as Hw. cbn [awaitsCycle Nat.add] in Hw.
    assert (Hplain : forall v : World,
               ui v = ui (wake n w) \/
               (exists m, ui v = ui (setSearchError m (wake n w))) ->
               pending v = pending (wake n w) ->
               coherent (setIsSearching false v)).
    { intros v Hu Hp. split.
      - apply (refsAgree_cells w); try exact Hr;
          destruct Hu as [Hu|[m Hu]]; cbn; rewrite Hu; reflexivity.
      - intros Hn.
        assert (Hn' : currentLocationRef (ui w) = None).
        { destruct Hu as [Hu|[m Hu]]; cbn in Hn; rewrite Hu in Hn;
            exact Hn. }
        destruct (Hg Hn') as [Hwd Hi]. split.
        + destruct Hu as [Hu|[m Hu]]; cbn; rewrite Hu; exact Hwd.
        + rewrite (inFlight_pending (wake n w) (setIsSearching false v) Hp).
          rewrite <- Hi. symmetry. exact Hw. }
    unfold seq.
    destruct r as [| | |[|result rest]].
    + unfold resumeGeocode, seq.
      apply (Hplain (setSearchError (Some searchFailedMessage)
                       (log (ConsoleError "Error searching location:")
                          (wake n w)))); [right; eexists|]; reflexivity.
    + unfold resumeGeocode, seq.
      apply (Hplain (setSearchError (Some searchFailedMessage)
                       (log (ConsoleError "Error searching location:")
                          (wake n w)))); [right; eexists|]; reflexivity.
    + unfold resumeGeocode, seq.
      apply (Hplain (setSearchError (Some searchFailedMessage)
                       (log (ConsoleError "Error searching location:")
                          (wake n w)))); [right; eexists|]; reflexivity.
    + unfold resumeGeocode, seq.
      apply (Hplain (setSearchError (Some searchNotFoundMessage) (wake n w)));
        [right; eexists|]; reflexivity.
    + unfold resumeGeocode, seq.
      set (v := setSearchedLocation (Some (newLocation result)) (wake n w)).
      assert (Hv : refsAgree v) by (now apply (refsAgree_cells w)).
      pose proof (refsAgree_select b (newLocation result) v Hv) as Hsel.
      split.
      * now apply (refsAgree_cells (handleLocationSelect b (newLocation result) v)).
      * intros Hn.
        change (currentLocationRef
                  (ui (handleLocationSelect b (newLocation result) v)) = None)
          in Hn.
        now rewrite select_currentRef in Hn.
Qed.

Lemma coherent_initial : coherent initialWorld.
Proof. repeat split. Qed.

Lemma coherent_steps (es : list Event) (w w' : World) :
  coherent w -> run es w = Some w' -> coherent w'.
Proof.
  revert w. induction es as [|e es IH]; intros w H; cbn.
  - now intros [= <-].
  - destruct (step e w) as [w1|] eqn:Hs; [|discriminate].
    apply IH. eapply coherent_step; eauto.
Qed.

(** X5.  In every world the component can reach, the dedup key is the key
    of the remembered location, the selection on display has the
    coordinates of the remembered location, [dataFetchedRef] is set exactly
    when a location is remembered, and without a remembered location no
    weather is stored and no cycle is in flight. *)
Theorem refs_and_selection_agree (es : list Event) (w : World) :
  run es initialWorld = Some w ->
  locationKeyRef (ui w) = option_map locationKey (currentLocationRef (ui w))
  /\ option_map Location.lat (selectedLocation (ui w))
     = option_map Location.lat (currentLocationRef (ui w))
  /\ option_map Location.lng (selectedLocation (ui w))
     = option_map Location.lng (currentLocationRef (ui w))
  /\ dataFetchedRef (ui w)
     = match currentLocationRef (ui w) with Some _ => true | None => false end
  /\ (currentLocationRef (ui w) = None ->
      weatherData (ui w) = None /\ inFlight w = 0).
Proof.
  intros Hrun.
  destruct (coherent_steps es initialWorld w coherent_initial Hrun)
    as [(Hk & Ha & Hb & Hd) Hg].
  auto 6.
Qed.

(** X3.  While the spinner is on, a refresh changes nothing at all.  In
    every world the component can reach in which [loading] is set, the
    [handleRefresh] of the latest render gives back the world it was
    called in: its fetch stops at the guard, and [dataFetchedRef], which
    it clears and sets again, was set already, as it is whenever a
    location is remembered. *)
Theorem refresh_while_loading_changes_nothing (es : list Event) (w : World) :
  run es initialWorld = Some w ->
  loading (ui w) = true ->
  handleRefresh (loading (ui w)) w = w.
Proof.
  intros Hrun Hl. rewrite Hl.
  destruct (coherent_steps es initialWorld w coherent_initial Hrun)
    as [(_ & _ & _ & Hd) _].
  unfold handleRefresh.
  destruct (currentLocationRef (ui w)) as [L|] eqn:Hc; [|reflexivity].
  destruct w as [u rs ps c]. destruct u. cbn in Hd, Hc |- *.
  subst. reflexivity.
Qed.

(** X6.  Whatever event opens a fetch cycle (a click, a refresh, the
    answer to a search), the cycle is opened for the coordinates of the
    location that is on display once the event is handled. *)
Theorem cycle_opens_for_the_selection (e : Event) (w w' : World) :
  refsAgree w ->
  step e w = Some w' ->
  fetchCycles w' = S (fetchCycles w) ->
  exists L,
    selectedLocation (ui w') = Some L
    /\ requests w' =
         requests w ++ [GetCurrent (Location.lat L) (Location.lng L)].
Proof.
  intros Hr Hs Hf.
  assert (Hsel : forall b L v,
             fetchCycles (handleLocationSelect b L v) = S (fetchCycles v) ->
             requests (handleLocationSelect b L v) =
             requests v ++ [GetCurrent (Location.lat L) (Location.lng L)]).
  { intros b L v H. pose proof (select_requests b L v) as Hq.
    destruct (keyDiffers _ _ && negb b); [exact Hq|].
    rewrite (fetchCycles_requests v _ Hq) in H. lia. }
  destruct e as [b L|b q|b|n r|n r|n r now|n r].
  - cbn in Hs. injection Hs as <-. exists L.
    split; [apply select_selected|now apply Hsel].
  - cbn in Hs. injection Hs as <-. rewrite search_cycles in Hf. lia.
  - cbn in Hs. injection Hs as <-. revert Hf. unfold handleRefresh.
    destruct Hr as (_ & Ha & Hb & _).
    destruct (currentLocationRef (ui w)) as [c|]; [|intros; lia].
    destruct b; [intros Hf; exfalso; revert Hf;
                 rewrite (fetchCycles_requests w) by reflexivity; lia|].
    intros _. destruct (selectedLocation (ui w)) as [s0|] eqn:Hs0;
      [|discriminate Ha].
    exists s0. cbn in Ha, Hb. injection Ha as Ha. injection Hb as Hb.
    split; [cbn; exact Hs0|]. cbn. now rewrite Ha, Hb.
  - destruct (cycle_reply_frame (CurrentReply n r) w w' eq_refl Hs)
      as (_ & _ & H). lia.
  - destruct (cycle_reply_frame (ForecastReply n r) w w' eq_refl Hs)
      as (_ & _ & H). lia.
  - destruct (cycle_reply_frame (OneCallReply n r now) w w' eq_refl Hs)
      as (_ & _ & H). lia.
  - cbn in Hs.
    destruct (lookupTask n (pending w)) as [[| | |b q]|]; try discriminate.
    injection Hs as <-.
    destruct r as [| | |[|result rest]];
      try (rewrite (fetchCycles_requests w) in Hf by reflexivity; lia).
    unfold seq, resumeGeocode, seq in *.
    set (v := setSearchedLocation (Some (newLocation result)) (wake n w)) in *.
    exists (newLocation result). split.
    + change (selectedLocation
                (ui (handleLocationSelect b (newLocation result) v))
              = Some (newLocation result)).
      apply select_selected.
    + change (requests (handleLocationSelect b (newLocation result) v)
              = requests v ++
                [GetCurrent (Location.lat (newLocation result))
                            (Location.lng (newLocation result))]).
      apply Hsel.
      rewrite (fetchCycles_requests w v eq_refl).
      etransitivity; [|exact Hf].
      symmetry. now apply fetchCycles_requests.
Qed.

(** ** The page *)

Lemma weather_panel_state (s : State) (p : WeatherPanel.t) :
  renderPanel s = Weather p ->
  loading s = false
  /\ shown (error s) = None
  /\ exists weather forecast,
       weatherData s = Some weather /\ forecastData s = Some forecast
       /\ p = weatherPanel s weather forecast.
Proof.
  unfold renderPanel.
  destruct (loading s); [discriminate|].
  destruct (shown (error s)); [discriminate|].
  destruct (weatherData s) as [wd|]; [|discriminate].
  destruct (forecastData s) as [fd|]; [|discriminate].
  intros [= <-]. split; [reflexivity|]. split; [reflexivity|].
  exists wd, fd. auto.
Qed.

(** X16.  The countdown, which alone is given [handleRefresh], is on the
    page only with the weather panel.  Whenever it is there, in a world
    the component can reach, the handler it holds has read
    [loading = false] and a location is remembered: a refresh it triggers
    opens exactly one fetch cycle, for the coordinates of the selection on
    display, and is never stopped by the guard. *)
Theorem refresh_on_screen_always_fetches
    (es : list Event) (w : World) (p : WeatherPanel.t) :
  run es initialWorld = Some w ->
  panel (render (ui w)) = Weather p ->
  exists L,
    selectedLocation (ui w) = Some L
    /\ CountdownTimer.onRefresh (WeatherPanel.countdown p) = false
    /\ offers (render (ui w)) (Refresh false)
    /\ requests (handleRefresh false w) =
         requests w ++ [GetCurrent (Location.lat L) (Location.lng L)]
    /\ fetchCycles (handleRefresh false w) = S (fetchCycles w)
    /\ loading (ui (handleRefresh false w)) = true.
Proof.
  intros Hrun Hp.
  destruct (coherent_steps es initialWorld w coherent_initial Hrun)
    as [(_ & Ha & Hb & _) Hg].
  destruct (weather_panel_state (ui w) p Hp)
    as (Hl & _ & wd & fd & Hw & _ & ->).
  destruct (currentLocationRef (ui w)) as [c|] eqn:Hc.
  2:{ destruct (Hg Hc) as [Hn _]. congruence. }
  destruct (selectedLocation (ui w)) as [s0|] eqn:Hs0; [|discriminate Ha].
  cbn in Ha, Hb. injection Ha as Ha. injection Hb as Hb.
  exists s0. split; [reflexivity|]. split; [exact Hl|].
  split.
  { cbn. cbn in Hp. rewrite Hp. cbn. now rewrite Hl. }
  assert (Hq : requests (handleRefresh false w) =
               requests w ++ [GetCurrent (Location.lat s0) (Location.lng s0)]).
  { unfold handleRefresh. rewrite Hc. cbn. now rewrite Ha, Hb. }
  split; [exact Hq|].
  split; [now rewrite (fetchCycles_snoc w _ _ Hq)|].
  unfold handleRefresh. rewrite Hc. reflexivity.
Qed.

Lemma select_error (b : bool) (L : Location) (w : World) :
  error (ui (handleLocationSelect b L w)) =
  if keyDiffers (locationKey L) (locationKeyRef (ui w)) && negb b
  then None else error (ui w).
Proof.
  unfold handleLocationSelect. cbn.
  destruct (keyDiffers _ _); [destruct b|]; reflexivity.
Qed.

Lemma cycle_reply_error (e : Event) (w w' : World) :
  isCycleReply e = true ->
  step e w = Some w' ->
  error (ui w') = error (ui w) \/ error (ui w') = Some fetchErrorMessage.
Proof.
  destruct e as [| | |n r|n r|n r now|]; try discriminate; intros _; cbn;
    destruct (lookupTask n (pending w)) as [[]|]; try discriminate;
    intros [= <-]; destruct r; cbn; auto.
Qed.

Lemma error_hides_refresh (s : State) (m : string) (b : bool) :
  error s = Some m -> m <> "" -> ~ offers (render s) (Refresh b).
Proof.
  intros He Hm. cbn. unfold renderPanel. rewrite He.
  destruct (loading s); [tauto|].
  destruct m as [|c rest]; [congruence|]. cbn. tauto.
Qed.

(** X7.  Once a cycle has failed, the page shows the error (or the
    spinner) and no countdown, so there is nothing to refresh with; and a
    click on the location whose key is stored is deduplicated.  Whatever a
    user who keeps to that location does, no fetch cycle is opened and the
    error stays. *)
Theorem failed_view_is_not_retried
    (L : Location) (es : list Event) (w w' : World) (m : string) :
  error (ui w) = Some m ->
  m <> "" ->
  locationKeyRef (ui w) = Some (locationKey L) ->
  keepsTo L es w ->
  run es w = Some w' ->
  fetchCycles w' = fetchCycles w
  /\ (exists m', error (ui w') = Some m' /\ m' <> "")
  /\ (forall b, ~ offers (render (ui w')) (Refresh b))
  /\ locationKeyRef (ui w') = Some (locationKey L).
Proof.
  revert w m.
  induction es as [|e es IH]; intros w m He Hm Hk Hkeep Hrun; cbn in Hrun.
  - injection Hrun as <-. split; [reflexivity|].
    split; [now exists m|].
    split; [|exact Hk]. intros b. now apply (error_hides_refresh _ m).
  - destruct Hkeep as [Hev Hrest].
    destruct (step e w) as [w1|] eqn:Hs; [|discriminate].
    assert (Hq : quietFor L e).
    { destruct Hev as [Hq|(b & -> & Hoff)]; [exact Hq|].
      exfalso. exact (error_hides_refresh _ m b He Hm Hoff). }
    assert (Hinv : fetchCycles w1 = fetchCycles w
                   /\ locationKeyRef (ui w1) = Some (locationKey L)
                   /\ exists m1, error (ui w1) = Some m1 /\ m1 <> "").
    { destruct e as [b L'| | | | | |]; try discriminate Hq.
      - cbn in Hq, Hs. injection Hs as <-.
        assert (Hsame : keyDiffers (locationKey L') (locationKeyRef (ui w))
                        = false) by (apply keyDiffers_false; congruence).
        rewrite select_key, select_error, Hsame. cbn.
        split; [|split; [congruence|now exists m]].
        apply fetchCycles_requests. now rewrite select_requests, Hsame.
      - destruct (cycle_reply_frame _ w w1 Hq Hs) as (Hk1 & _ & Hf1).
        split; [exact Hf1|]. split; [congruence|].
        destruct (cycle_reply_error _ w w1 Hq Hs) as [E|E]; rewrite E;
          [now exists m|exists fetchErrorMessage; split; [auto|discriminate]].
      - destruct (cycle_reply_frame _ w w1 Hq Hs) as (Hk1 & _ & Hf1).
        split; [exact Hf1|]. split; [congruence|].
        destruct (cycle_reply_error _ w w1 Hq Hs) as [E|E]; rewrite E;
          [now exists m|exists fetchErrorMessage; split; [auto|discriminate]].
      - destruct (cycle_reply_frame _ w w1 Hq Hs) as (Hk1 & _ & Hf1).
        split; [exact Hf1|]. split; [congruence|].
        destruct (cycle_reply_error _ w w1 Hq Hs) as [E|E]; rewrite E;
          [now exists m|exists fetchErrorMessage; split; [auto|discriminate]]. }
    destruct Hinv as (Hf1 & Hk1 & m1 & He1 & Hm1).
    destruct (IH w1 m1 He1 Hm1 Hk1 Hrest Hrun) as (Hf & Hrest').
    split; [congruence|exact Hrest'].
Qed.

(** ** A cycle that is overtaken *)

(** The first two replies of a cycle are good: what the three replies
    leave, from any world in which the cycle is the last one parked. *)
Lemma cycle_after (s : World) (ts : list (nat * Task)) (n : nat)
    (A : Location) (d : WeatherData) (f : ForecastData)
    (r3 : Response OneCallData) (now : Z) :
  pending s = ts ++ [(n, AwaitCurrent A)] ->
  Forall (fun p => fst p < n) ts ->
  List.length (requests s) = S n ->
  exists w',
    run (cycleReplies n (Json d) (Json f) r3 now) s = Some w'
    /\ weatherData (ui w') = Some d
    /\ forecastData (ui w') = Some f
    /\ selectedLocation (ui w') =
         (if completes r3
          then reconcileName A d (selectedLocation (ui s))
          else selectedLocation (ui s))
    /\ lastUpdated (ui w') =
         (if completes r3 then Some now else lastUpdated (ui s))
    /\ error (ui w') =
         (if completes r3 then error (ui s) else Some fetchErrorMessage)
    /\ loading (ui w') = false
    /\ locationKeyRef (ui w') = locationKeyRef (ui s)
    /\ fetchCycles w' = fetchCycles s
    /\ pending w' = ts.
Proof.
  intros Hp Hb Hlen.
  pose proof (bound_weaken _ _ Hb) as Hb1.
  pose proof (bound_weaken _ _ Hb1) as Hb2.
  cbn [cycleReplies run].
  rewrite (current_reply_last s ts n A _ Hp Hb).
  set (s1 := resumeCurrent A (Json d) _).
  assert (Hp1 : pending s1 = ts ++ [(S n, AwaitForecast A d)]).
  { subst s1. cbn. now rewrite Hlen. }
  rewrite (forecast_reply_last s1 ts (S n) A d _ Hp1 Hb1).
  set (s2 := resumeForecast A d (Json f) _).
  assert (Hp2 : pending s2 = ts ++ [(S (S n), AwaitOneCall A d)]).
  { subst s2 s1. cbn. now rewrite length_snoc, Hlen. }
  rewrite (onecall_reply_last s2 ts (S (S n)) A d _ _ Hp2 Hb2).
  eexists. split; [reflexivity|].
  assert (Hc : forall v a b a' b',
             requests v = (requests s ++ [GetForecast a b])
                          ++ [GetOneCall a' b'] ->
             fetchCycles v = fetchCycles s).
  { intros v a b a' b' Hv. unfold fetchCycles.
    rewrite Hv, !filter_app. cbn. now rewrite !app_nil_r. }
  destruct r3; repeat split; eapply Hc; reflexivity.
Qed.

(** X8.  Results are stored without a look at the selection.  A cycle for
    one location is in flight, another place is clicked from the render
    that shows the spinner (so its own fetch is stopped by the guard),
    and the replies for the first location arrive: the page then shows
    the first location's weather and forecast while the selection and the
    key are those of the second, for which no cycle was ever opened. *)
Theorem overtaken_cycle_shows_under_new_selection
    (w : World) (first second : Location) (d : WeatherData)
    (f : ForecastData) (r3 : Response OneCallData) (now : Z) :
  wf w ->
  sameCoordinates second first = false ->
  completes r3 = true ->
  let started := fetchWeatherData false first w in
  let moved := handleLocationSelect (loading (ui started)) second started in
  exists w',
    run (cycleReplies (List.length (requests w)) (Json d) (Json f) r3 now)
        moved = Some w'
    /\ selectedLocation (ui w') = Some second
    /\ locationKeyRef (ui w') = Some (locationKey second)
    /\ weatherData (ui w') = Some d
    /\ forecastData (ui w') = Some f
    /\ panel (render (ui w')) = Weather (weatherPanel (ui w') d f)
    /\ requests moved = requests started
    /\ fetchCycles w' = S (fetchCycles w).
Proof.
  intros Hwf Hdiff Hok started moved.
  assert (Hload : loading (ui started) = true) by reflexivity.
  assert (Hreq : requests moved = requests started).
  { subst moved. rewrite Hload, select_requests. now rewrite andb_false_r. }
  assert (Hpen : pending moved
                 = pending w ++ [(List.length (requests w), AwaitCurrent first)]).
  { subst moved. rewrite Hload, select_pending. now rewrite andb_false_r. }
  assert (Hlen : List.length (requests moved) = S (List.length (requests w))).
  { rewrite Hreq. subst started. cbn. apply length_snoc. }
  destruct (cycle_after moved (pending w) (List.length (requests w)) first
              d f r3 now Hpen Hwf Hlen)
    as (w' & Hrun & Hwd & Hfd & Hsel & _ & Herr & Hl & Hk & Hfc & _).
  exists w'. split; [exact Hrun|].
  rewrite Hok in Hsel, Herr.
  assert (Hsel' : selectedLocation (ui w') = Some second).
  { rewrite Hsel. subst moved. rewrite select_selected. cbn.
    now rewrite Hdiff. }
  assert (Herr' : error (ui w') = None).
  { rewrite Herr. subst moved. rewrite Hload, select_error.
    now rewrite andb_false_r. }
  split; [exact Hsel'|].
  split; [rewrite Hk; subst moved; apply select_key|].
  split; [exact Hwd|]. split; [exact Hfd|].
  split.
  { cbn. unfold renderPanel. now rewrite Hl, Herr', Hwd, Hfd. }
  split; [exact Hreq|].
  rewrite Hfc. rewrite (fetchCycles_requests started moved Hreq).
  subst started.
  now rewrite (fetchCycles_snoc w _
                 (GetCurrent (Location.lat first) (Location.lng first))).
Qed.

(** ** What only a reply can change *)

(** X9.  A click, a search, its answer and a refresh never change or
    clear the weather, the forecast, the alerts or the time stamp: what is
    stored stays until a reply to a cycle replaces it. *)
Theorem only_replies_write_weather (e : Event) (w w' : World) :
  isCycleReply e = false ->
  step e w = Some w' ->
  weatherData (ui w') = weatherData (ui w)
  /\ forecastData (ui w') = forecastData (ui w)
  /\ alertsData (ui w') = alertsData (ui w)
  /\ lastUpdated (ui w') = lastUpdated (ui w).
Proof.
  assert (Hsel : forall b L v,
             weatherData (ui (handleLocationSelect b L v)) = weatherData (ui v)
             /\ forecastData (ui (handleLocationSelect b L v))
                = forecastData (ui v)
             /\ alertsData (ui (handleLocationSelect b L v))
                = alertsData (ui v)
             /\ lastUpdated (ui (handleLocationSelect b L v))
                = lastUpdated (ui v)).
  { intros b L v. unfold handleLocationSelect. cbn.
    destruct (keyDiffers _ _); [destruct b|]; cbn; auto. }
  destruct e as [b L|b q|b|n r|n r|n r now|n r]; try discriminate;
    intros _; cbn [step].
  - intros [= <-]. apply Hsel.
  - intros [= <-]. unfold handleSearch, seq.
    destruct (encodeURIComponent q); cbn; auto.
  - intros [= <-]. unfold handleRefresh.
    destruct (currentLocationRef (ui w)); [destruct b|]; cbn; auto.
  - destruct (lookupTask n (pending w)) as [[| | |b q]|]; try discriminate.
    intros [= <-].
    destruct r as [| | |[|result rest]]; cbn; auto.
    unfold seq, resumeGeocode, seq.
    exact (Hsel b (newLocation result)
             (setSearchedLocation (Some (newLocation result)) (wake n w))).
Qed.

(** ** The order of the requests *)

Lemma lookupTask_In (n : nat) (t : Task) (ts : list (nat * Task)) :
  lookupTask n ts = Some t -> In (n, t) ts.
Proof.
  induction ts as [|[m u] ts IH]; cbn; [discriminate|].
  destruct (Nat.eqb_spec n m) as [->|_].
  - intros [= ->]. now left.
  - intros H. right. now apply IH.
Qed.

Lemma removeTask_Forall (P : nat * Task -> Prop) (n : nat)
    (ts : list (nat * Task)) :
  Forall P ts -> Forall P (removeTask n ts).
Proof.
  induction ts as [|[m u] ts IH]; intros H; cbn; [constructor|].
  inversion H; subst. destruct (Nat.eqb n m); [assumption|].
  constructor; auto.
Qed.

Lemma taskFollows_more (rs : list Request) (r : Request) (t : Task) :
  taskFollows rs t -> taskFollows (rs ++ [r]) t.
Proof.
  destruct t; cbn; auto; intros H; apply in_or_app; now left.
Qed.

(** A request goes out and a task is parked: the order is kept if the
    request has its predecessor in the log and the task waits for a
    request of the new log. *)
Lemma follow_fetch (r : Request) (k : Task) (v : World) :
  requestsFollow v ->
  match r with
  | GetForecast a b => In (GetCurrent a b) (requests v)
  | GetOneCall a b => In (GetForecast a b) (requests v)
  | GetCurrent _ _ | GetGeocode _ => True
  end ->
  taskFollows (requests v ++ [r]) k ->
  requestsFollow (fetch r k v).
Proof.
  intros (H1 & H2 & H3) Hr Hk. unfold requestsFollow, fetch. cbn.
  split; [|split].
  - intros a b Hin. apply in_or_app. left.
    apply in_app_or in Hin as [Hin|[E|[]]]; [now apply H1|].
    subst r. exact Hr.
  - intros a b Hin. apply in_or_app.
    apply in_app_or in Hin as [Hin|[E|[]]]; [left; now apply H2|].
    subst r. now left.
  - apply Forall_app. split.
    + eapply Forall_impl; [|exact H3]. intros p. apply taskFollows_more.
    + constructor; [exact Hk|constructor].
Qed.

Lemma follow_wake (n : nat) (v : World) :
  requestsFollow v -> requestsFollow (wake n v).
Proof.
  intros (H1 & H2 & H3). unfold requestsFollow, wake. cbn.
  split; [exact H1|]. split; [exact H2|]. now apply removeTask_Forall.
Qed.

(** [requestsFollow] reads the log and the table only. *)
Lemma follow_same (v v' : World) :
  requests v' = requests v -> pending v' = pending v ->
  requestsFollow v -> requestsFollow v'.
Proof. unfold requestsFollow. intros -> ->. exact (fun H => H). Qed.

Lemma follow_fetchWeatherData (b : bool) (L : Location) (v : World) :
  requestsFollow v -> requestsFollow (fetchWeatherData b L v).
Proof.
  intros H. destruct b; [exact H|]. unfold fetchWeatherData, seq.
  apply follow_fetch.
  - now apply (follow_same v).
  - exact I.
  - cbn. apply in_or_app. right. now left.
Qed.

Lemma follow_select (b : bool) (L : Location) (v : World) :
  requestsFollow v -> requestsFollow (handleLocationSelect b L v).
Proof.
  intros H. unfold handleLocationSelect.
  destruct (keyDiffers _ _); [|now apply (follow_same v)].
  unfold seq.
  match goal with
  | |- requestsFollow (setDataFetchedRef true ?x) =>
      apply (follow_same x); [reflexivity|reflexivity|]
  end.
  apply follow_fetchWeatherData. now apply (follow_same v).
Qed.

Lemma follow_step (e : Event) (w w' : World) :
  requestsFollow w -> step e w = Some w' -> requestsFollow w'.
Proof.
  intros H. destruct e as [b L|b q|b|n r|n r|n r now|n r]; cbn [step].
  - intros [= <-]. now apply follow_select.
  - intros [= <-]. unfold handleSearch, seq.
    destruct (encodeURIComponent q) as [q'|]; [|now apply (follow_same w)].
    apply follow_fetch.
    + now apply (follow_same w).
    + exact I.
    + exact I.
  - intros [= <-]. unfold handleRefresh.
    destruct (currentLocationRef (ui w)) as [L|]; [|exact H].
    unfold seq.
    match goal with
    | |- requestsFollow (setDataFetchedRef true ?x) =>
        apply (follow_same x); [reflexivity|reflexivity|]
    end.
    apply follow_fetchWeatherData. now apply (follow_same w).
  - destruct (lookupTask n (pending w)) as [[L| | |]|] eqn:Hl;
      try discriminate.
    intros [= <-].
    assert (Hin : In (GetCurrent (Location.lat L) (Location.lng L))
                    (requests w)).
    { destruct H as (_ & _ & H3). rewrite Forall_forall in H3.
      exact (H3 _ (lookupTask_In _ _ _ Hl)). }
    apply (follow_wake n) in H. unfold seq.
    destruct r as [| | |d]; try (now apply (follow_same (wake n w))).
    unfold resumeCurrent, seq. apply follow_fetch.
    + now apply (follow_same (wake n w)).
    + exact Hin.
    + cbn. apply in_or_app. right. now left.
  - destruct (lookupTask n (pending w)) as [[|L d| |]|] eqn:Hl;
      try discriminate.
    intros [= <-].
    assert (Hin : In (GetForecast (Location.lat L) (Location.lng L))
                    (requests w)).
    { destruct H as (_ & _ & H3). rewrite Forall_forall in H3.
      exact (H3 _ (lookupTask_In _ _ _ Hl)). }
    apply (follow_wake n) in H. unfold seq.
    destruct r as [| | |f]; try (now apply (follow_same (wake n w))).
    unfold resumeForecast, seq. apply follow_fetch.
    + now apply (follow_same (wake n w)).
    + exact Hin.
    + cbn. apply in_or_app. right. now left.
  - destruct (lookupTask n (pending w)) as [[| |L d|]|] eqn:Hl;
      try discriminate.
    intros [= <-]. apply (follow_wake n) in H. unfold seq.
    destruct r; now apply (follow_same (wake n w)).
  - destruct (lookupTask n (pending w)) as [[| | |b q]|] eqn:Hl;
      try discriminate.
    intros [= <-]. apply (follow_wake n) in H. unfold seq.
    destruct r as [| | |[|result rest]];
      try (now apply (follow_same (wake n w))).
    unfold resumeGeocode, seq.
    match goal with
    | |- requestsFollow (setIsSearching false ?x) =>
        apply (follow_same x); [reflexivity|reflexivity|]
    end.
    apply follow_select. now apply (follow_same (wake n w)).
Qed.

Lemma follow_steps (es : list Event) (w w' : World) :
  requestsFollow w -> run es w = Some w' -> requestsFollow w'.
Proof.
  revert w. induction es as [|e es IH]; intros w H; cbn.
  - now intros [= <-].
  - destruct (step e w) as [w1|] eqn:Hs; [|discriminate].
    apply IH. eapply follow_step; eauto.
Qed.

(** X10.  In every world the component can reach, a forecast has been
    asked for only for coordinates for which current conditions were
    asked for, and alerts only for coordinates for which a forecast was
    asked for. *)
Theorem requests_follow_each_other (es : list Event) (w : World) :
  run es initialWorld = Some w ->
  (forall a b, In (GetForecast a b) (requests w) ->
               In (GetCurrent a b) (requests w))
  /\ (forall a b, In (GetOneCall a b) (requests w) ->
                  In (GetForecast a b) (requests w)).
Proof.
  intros Hrun.
  assert (H0 : requestsFollow initialWorld).
  { repeat split; try (intros a b []). constructor. }
  destruct (follow_steps es initialWorld w H0 Hrun) as (H1 & H2 & _).
  split; assumption.
Qed.

(** ** The name of a place that was found *)

(** X11.  The name a search gives its location: [display_name.split(",")[0]]
    gives back the first part of an address that was put together with
    commas.  A text without a comma is what is cut from itself and from
    anything it is followed by after a comma, and it is the name of the
    location [handleSearch] builds from such a candidate, whatever the
    coordinates are. *)
Theorem firstSegment_of_joined (part rest : string) :
  ~ In ","%char (list_ascii_of_string part) ->
  firstSegment (part ++ String "," rest)%string = part
  /\ firstSegment part = part
  /\ forall lat lon : string,
       Location.name
         (newLocation (Candidate.mk lat lon (part ++ String "," rest)%string))
       = Some part
       /\ Location.name (newLocation (Candidate.mk lat lon part)) = Some part.
Proof.
  intros Hno.
  assert (H : firstSegment (part ++ String "," rest)%string = part
              /\ firstSegment part = part).
  { revert Hno. induction part as [|c part IH]; cbn; intros Hno; [auto|].
    destruct (Ascii.eqb_spec c ","%char) as [->|Hc]; [exfalso; auto|].
    destruct IH as [IH1 IH2]; [tauto|]. now rewrite IH1, IH2. }
  destruct H as [H1 H2]. split; [exact H1|]. split; [exact H2|].
  intros lat lon. unfold newLocation.
  cbn [Location.name Candidate.display_name]. now rewrite H1, H2.
Qed.

(** ** Alerts on the page *)

(** X12.  The panel shows alerts only if the stored list is not empty:
    [null] and the empty list, and any two values without an alert, give
    the same panel (no banner, the tab disabled, the text "No weather
    alerts for this location."); and a stored list with an alert in it
    never gives that panel when weather is shown. *)
Theorem panel_ignores_empty_alerts
    (w : World) (x y : option (list Alert)) :
  truthy (hasAlerts x) = false ->
  truthy (hasAlerts y) = false ->
  panel (render (ui (setAlertsData x w)))
    = panel (render (ui (setAlertsData y w)))
  /\ forall a rest p,
       panel (render (ui (setAlertsData (Some (a :: rest)) w))) = Weather p ->
       WeatherPanel.banner p = Some (Some (a :: rest))
       /\ Tabs.alertsDisabled (WeatherPanel.tabs p) = false
       /\ panel (render (ui (setAlertsData x w))) <> Weather p.
Proof.
  intros Hx Hy. split.
  - cbn. unfold renderPanel, weatherPanel. cbn.
    destruct (loading (ui w)); [reflexivity|].
    destruct (shown (error (ui w))); [reflexivity|].
    destruct (weatherData (ui w)); [|reflexivity].
    destruct (forecastData (ui w)); [|reflexivity].
    now rewrite Hx, Hy.
  - intros a rest p. cbn. unfold renderPanel, weatherPanel. cbn.
    destruct (loading (ui w)); [discriminate|].
    destruct (shown (error (ui w))); [discriminate|].
    destruct (weatherData (ui w)); [|discriminate].
    destruct (forecastData (ui w)); [|discriminate].
    intros [= <-]. cbn. rewrite Hx.
    repeat split. discriminate.
Qed.

(** ** Searches that fail, clicks that repeat, and who fetches *)

(** X13.  A search whose request is rejected, answered with a bad status
    or with a body that does not parse shows "Location search failed.
    Please try again later.", logs the error and ends the search; the
    rest of the state, the selection and the weather among it, is as it
    was, and nothing is requested. *)
Theorem failed_search_changes_nothing_else
    (w : World) (n : nat) (b : bool) (query : string)
    (r : Response (list Candidate)) :
  lookupTask n (pending w) = Some (AwaitGeocode b query) ->
  isJson r = false ->
  exists w',
    step (GeocodeReply n r) w = Some w'
    /\ ui w' = ui (setIsSearching false
                     (setSearchError (Some searchFailedMessage) w))
    /\ searchErrorText (render (ui w')) = Some searchFailedMessage
    /\ requests w' = requests w
    /\ pending w' = removeTask n (pending w)
    /\ console w' = console w ++ [ConsoleError "Error searching location:"].
Proof.
  intros Hl Hr. cbn [step]. rewrite Hl. eexists. split; [reflexivity|].
  destruct r; try discriminate Hr; repeat split.
Qed.

(** X14.  Selecting a location and selecting it again, at once, is
    selecting it once: the second call leaves the world as the first one
    made it, whichever renders the two handlers belong to. *)
Theorem select_twice_is_select_once (b1 b2 : bool) (L : Location) (w : World) :
  handleLocationSelect b2 L (handleLocationSelect b1 L w)
  = handleLocationSelect b1 L w.
Proof.
  pose proof (select_key b1 L w) as Hk.
  unfold handleLocationSelect at 1.
  change (locationKeyRef
            (ui (setCurrentLocationRef (Some L) (handleLocationSelect b1 L w))))
    with (locationKeyRef (ui (handleLocationSelect b1 L w))).
  rewrite Hk.
  replace (keyDiffers (locationKey L) (Some (locationKey L))) with false
    by (symmetry; now apply keyDiffers_false).
  unfold handleLocationSelect. cbn.
  destruct (keyDiffers _ _); [destruct b1|]; reflexivity.
Qed.

Lemma step_opens_at_most_one (e : Event) (w w' : World) :
  step e w = Some w' ->
  fetchCycles w' <= fetchCycles w + (if mayFetch e then 1 else 0).
Proof.
  assert (Hsel : forall b L v,
             fetchCycles (handleLocationSelect b L v) <= fetchCycles v + 1).
  { intros b L v. pose proof (select_requests b L v) as Hq.
    destruct (keyDiffers _ _ && negb b).
    - rewrite (fetchCycles_snoc v _ _ Hq). cbn. lia.
    - rewrite (fetchCycles_requests v _ Hq). lia. }
  destruct e as [b L|b q|b|n r|n r|n r now|n r]; cbn [mayFetch].
  - cbn. intros [= <-]. apply Hsel.
  - cbn. intros [= <-]. rewrite search_cycles. lia.
  - cbn. intros [= <-]. unfold handleRefresh.
    destruct (currentLocationRef (ui w)) as [L|]; [|lia].
    destruct b.
    + rewrite (fetchCycles_requests w) by reflexivity. lia.
    + rewrite (fetchCycles_snoc w _
                 (GetCurrent (Location.lat L) (Location.lng L)))
        by reflexivity.
      cbn. lia.
  - intros Hs.
    destruct (cycle_reply_frame (CurrentReply n r) w w' eq_refl Hs)
      as (_ & _ & H). lia.
  - intros Hs.
    destruct (cycle_reply_frame (ForecastReply n r) w w' eq_refl Hs)
      as (_ & _ & H). lia.
  - intros Hs.
    destruct (cycle_reply_frame (OneCallReply n r now) w w' eq_refl Hs)
      as (_ & _ & H). lia.
  - cbn [step].
    destruct (lookupTask n (pending w)) as [[| | |b q]|]; try discriminate.
    intros [= <-].
    destruct r as [| | |[|result rest]];
      try (rewrite (fetchCycles_requests w) by reflexivity; lia).
    unfold seq, resumeGeocode, seq.
    set (v := setSearchedLocation (Some (newLocation result)) (wake n w)).
    rewrite (fetchCycles_requests (handleLocationSelect b (newLocation result) v))
      by reflexivity.
    rewrite <- (fetchCycles_requests w v eq_refl). apply Hsel.
Qed.

(** X15.  The component never fetches weather on its own account: over
    any run, the fetch cycles opened are at most as many as the clicks
    on the map, the refreshes and the geocoder answers that name a place.
    Replies to a cycle, searches and searches without a result open
    none. *)
Theorem cycles_need_a_trigger (es : list Event) (w w' : World) :
  run es w = Some w' ->
  fetchCycles w' <= fetchCycles w + List.length (filter mayFetch es).
Proof.
  revert w. induction es as [|e es IH]; intros w; cbn [run filter].
  - intros [= <-]. cbn. lia.
  - destruct (step e w) as [w1|] eqn:Hs; [|discriminate].
    intros Hrun. specialize (IH w1 Hrun).
    pose proof (step_opens_at_most_one e w w1 Hs) as H1.
    destruct (mayFetch e); cbn [List.length]; lia.
Qed.

(** ** The search indicator *)

Lemma searchesAwaited_pending (w w' : World) :
  pending w' = pending w -> searchesAwaited w' = searchesAwaited w.
Proof. unfold searchesAwaited. now intros ->. Qed.

Lemma searchesAwaited_snoc (w w' : World) (n : nat) (t : Task) :
  pending w' = pending w ++ [(n, t)] ->
  searchesAwaited w' = (if awaitsGeocoder t then 1 else 0) + searchesAwaited w.
Proof.
  unfold searchesAwaited. intros ->. rewrite filter_app, length_app. cbn.
  destruct (awaitsGeocoder t); cbn; lia.
Qed.

Lemma searchesAwaited_wake (w : World) (n : nat) (t : Task) :
  lookupTask n (pending w) = Some t ->
  searchesAwaited w
  = (if awaitsGeocoder t then 1 else 0) + searchesAwaited (wake n w).
Proof.
  unfold searchesAwaited, wake. cbn [pending].
  induction (pending w) as [|[m u] ts IH];
    cbn [lookupTask removeTask filter snd]; [discriminate|].
  destruct (Nat.eqb n m).
  - intros [= ->]. destruct (awaitsGeocoder t); cbn [List.length]; lia.
  - intros Hl. specialize (IH Hl). cbn [filter snd].
    destruct (awaitsGeocoder u); cbn [List.length]; lia.
Qed.

Lemma fetchWeatherData_searches (b : bool) (L : Location) (w : World) :
  isSearching (ui (fetchWeatherData b L w)) = isSearching (ui w)
  /\ searchesAwaited (fetchWeatherData b L w) = searchesAwaited w.
Proof.
  unfold fetchWeatherData. destruct b; [split; reflexivity|].
  split; [reflexivity|].
  now rewrite (searchesAwaited_snoc w _ (List.length (requests w))
                 (AwaitCurrent L)).
Qed.

Lemma select_searches (b : bool) (L : Location) (w : World) :
  isSearching (ui (handleLocationSelect b L w)) = isSearching (ui w)
  /\ searchesAwaited (handleLocationSelect b L w) = searchesAwaited w.
Proof.
  pose proof (select_pending b L w) as Hp. split.
  - unfold handleLocationSelect. cbn.
    destruct (keyDiffers _ _); [destruct b|]; reflexivity.
  - destruct (keyDiffers _ _ && negb b).
    + now rewrite (searchesAwaited_snoc w _ _ _ Hp).
    + now apply searchesAwaited_pending.
Qed.

(** What one event does to the indicator and to the searches awaited. *)
Lemma step_searches (e : Event) (w w' : World) :
  step e w = Some w' ->
  match e with
  | Search _ q =>
      match encodeURIComponent q with
      | Some _ =>
          isSearching (ui w') = true
          /\ searchesAwaited w' = S (searchesAwaited w)
      | None =>
          isSearching (ui w') = false
          /\ searchesAwaited w' = searchesAwaited w
      end
  | GeocodeReply _ _ =>
      isSearching (ui w') = false
      /\ S (searchesAwaited w') = searchesAwaited w
  | _ =>
      isSearching (ui w') = isSearching (ui w)
      /\ searchesAwaited w' = searchesAwaited w
  end.
Proof.
  destruct e as [b L|b q|b|n r|n r|n r now|n r]; cbn [step].
  - intros [= <-]. apply select_searches.
  - intros [= <-]. unfold handleSearch, seq.
    destruct (encodeURIComponent q) as [q'|]; (split; [reflexivity|]).
    + now rewrite (searchesAwaited_snoc w _ (List.length (requests w))
                     (AwaitGeocode b q)).
    + now apply searchesAwaited_pending.
  - intros [= <-]. unfold handleRefresh.
    destruct (currentLocationRef (ui w)) as [L|]; [|split; reflexivity].
    unfold seq. split.
    + now destruct b.
    + destruct b; [now apply searchesAwaited_pending|].
      now rewrite (searchesAwaited_snoc w _ (List.length (requests w))
                     (AwaitCurrent L)).
  - destruct (lookupTask n (pending w)) as [[L| | |]|] eqn:Hl;
      try discriminate.
    intros [= <-]. rewrite (searchesAwaited_wake w n _ Hl). unfold seq.
    cbn [awaitsGeocoder Nat.add].
    destruct r as [| | |d]; (split; [reflexivity|]).
    1-3: apply searchesAwaited_pending; reflexivity.
    now rewrite (searchesAwaited_snoc (wake n w) _
                   (List.length (requests w)) (AwaitForecast L d)).
  - destruct (lookupTask n (pending w)) as [[|L d| |]|] eqn:Hl;
      try discriminate.
    intros [= <-]. rewrite (searchesAwaited_wake w n _ Hl). unfold seq.
    cbn [awaitsGeocoder Nat.add].
    destruct r as [| | |f]; (split; [reflexivity|]).
    1-3: apply searchesAwaited_pending; reflexivity.
    now rewrite (searchesAwaited_snoc (wake n w) _
                   (List.length (requests w)) (AwaitOneCall L d)).
  - destruct (lookupTask n (pending w)) as [[| |L d|]|] eqn:Hl;
      try discriminate.
    intros [= <-]. rewrite (searchesAwaited_wake w n _ Hl). unfold seq.
    cbn [awaitsGeocoder Nat.add].
    destruct r as [| | |o]; (split; [reflexivity|]);
      apply searchesAwaited_pending; reflexivity.
  - destruct (lookupTask n (pending w)) as [[| | |b q]|] eqn:Hl;
      try discriminate.
    intros [= <-]. rewrite (searchesAwaited_wake w n _ Hl). unfold seq.
    cbn [awaitsGeocoder Nat.add].
    destruct r as [| | |[|result rest]]; (split; [reflexivity|]); f_equal;
      try (apply searchesAwaited_pending; reflexivity).
    unfold resumeGeocode, seq.
    set (v := setSearchedLocation (Some (newLocation result)) (wake n w)).
    rewrite (searchesAwaited_pending
               (handleLocationSelect b (newLocation result) v)) by reflexivity.
    rewrite (proj2 (select_searches b (newLocation result) v)).
    now apply searchesAwaited_pending.
Qed.

(** X17.  The search indicator never hangs on its own: in every world the
    component can reach, [isSearching] is set only while the answer to a
    search is awaited.  A query that [encodeURIComponent] refuses leaves
    the indicator off, as no request goes out for it; every answer of the
    geocoder, whatever it is, turns the indicator off and is the end of
    one search. *)
Theorem search_indicator_is_awaited (es : list Event) (w : World) :
  run es initialWorld = Some w ->
  (isSearching (ui w) = true -> 0 < searchesAwaited w)
  /\ forall n r w',
       step (GeocodeReply n r) w = Some w' ->
       isSearching (ui w') = false
       /\ S (searchesAwaited w') = searchesAwaited w.
Proof.
  intros Hrun. split; [|intros n r w' Hs; exact (step_searches _ _ _ Hs)].
  assert (Hinv : forall es v v',
             (isSearching (ui v) = true -> 0 < searchesAwaited v) ->
             run es v = Some v' ->
             isSearching (ui v') = true -> 0 < searchesAwaited v').
  { clear. intros es. induction es as [|e es IH]; intros v v' Hv; cbn [run].
    - now intros [= <-].
    - destruct (step e v) as [v1|] eqn:Hs; [|discriminate].
      apply IH. pose proof (step_searches e v v1 Hs) as H.
      destruct e as [b L|b q|b|n r|n r|n r now|n r];
        try (destruct H as [H1 H2]; rewrite H1, H2; exact Hv).
      + destruct (encodeURIComponent q); destruct H as [H1 H2];
          rewrite H1, H2; [lia|discriminate].
      + destruct H as [H1 _]. rewrite H1. discriminate. }
  apply (Hinv es initialWorld w); [discriminate|exact Hrun].
Qed.

End Component.

(** * More concrete runs *)

Example settled_refs_agree : refsAgree (B := ecma) Sample.settled.
Proof.
  pose proof settled_world as (Hrun & _).
  exact (proj1 (coherent_steps (B := ecma) _ _ _ coherent_initial Hrun)).
Qed.

Example refresh_of_settled :
  step (B := ecma) (Refresh false) Sample.settled
  = Some (Sample.worldAfter [Refresh false] Sample.settled).
Proof. vm_compute. reflexivity. Qed.

(** X5 at the end of a visit in which London was clicked while Paris
    loaded. *)
Lemma refs_and_selection_agree_witness :
  run (B := ecma) Tour.overtaken initialWorld
    = Some (Sample.worldAfter Tour.overtaken initialWorld)
  /\ (locationKeyRef (ui (Sample.worldAfter Tour.overtaken initialWorld))
      = option_map (locationKey (B := ecma))
          (currentLocationRef
             (ui (Sample.worldAfter Tour.overtaken initialWorld)))
      /\ option_map Location.lat
           (selectedLocation
              (ui (Sample.worldAfter Tour.overtaken initialWorld)))
         = option_map Location.lat
             (currentLocationRef
                (ui (Sample.worldAfter Tour.overtaken initialWorld)))
      /\ option_map Location.lng
           (selectedLocation
              (ui (Sample.worldAfter Tour.overtaken initialWorld)))
         = option_map Location.lng
             (currentLocationRef
                (ui (Sample.worldAfter Tour.overtaken initialWorld)))
      /\ dataFetchedRef (ui (Sample.worldAfter Tour.overtaken initialWorld))
         = match currentLocationRef
                   (ui (Sample.worldAfter Tour.overtaken initialWorld)) with
           | Some _ => true
           | None => false
           end
      /\ (currentLocationRef
            (ui (Sample.worldAfter Tour.overtaken initialWorld)) = None ->
          weatherData (ui (Sample.worldAfter Tour.overtaken initialWorld))
            = None
          /\ inFlight (Sample.worldAfter Tour.overtaken initialWorld) = 0)).
Proof.
  assert (Hr : run (B := ecma) Tour.overtaken initialWorld
               = Some (Sample.worldAfter Tour.overtaken initialWorld))
    by (vm_compute; reflexivity).
  split; [exact Hr|].
  exact (refs_and_selection_agree (B := ecma) Tour.overtaken _ Hr).
Defined.

(** X6 at a refresh of the settled view. *)
Lemma cycle_opens_for_the_selection_witness :
  refsAgree (B := ecma) Sample.settled
  /\ step (B := ecma) (Refresh false) Sample.settled
     = Some (Sample.worldAfter [Refresh false] Sample.settled)
  /\ fetchCycles (Sample.worldAfter [Refresh false] Sample.settled)
     = S (fetchCycles Sample.settled)
  /\ exists L,
       selectedLocation (ui (Sample.worldAfter [Refresh false] Sample.settled))
         = Some L
       /\ requests (Sample.worldAfter [Refresh false] Sample.settled) =
            requests Sample.settled
            ++ [GetCurrent (Location.lat L) (Location.lng L)].
Proof.
  assert (Hf : fetchCycles (Sample.worldAfter [Refresh false] Sample.settled)
               = S (fetchCycles Sample.settled))
    by (vm_compute; reflexivity).
  split; [exact settled_refs_agree|]. split; [exact refresh_of_settled|].
  split; [exact Hf|].
  exact (cycle_opens_for_the_selection (B := ecma) (Refresh false)
           Sample.settled _ settled_refs_agree refresh_of_settled Hf).
Defined.

(** X3 on the settled view. *)
Lemma refresh_on_screen_always_fetches_witness :
  run (B := ecma) Sample.firstVisit initialWorld = Some Sample.settled
  /\ panel (render (ui Sample.settled)) = Weather Tour.settledPanel
  /\ exists L,
       selectedLocation (ui Sample.settled) = Some L
       /\ CountdownTimer.onRefresh (WeatherPanel.countdown Tour.settledPanel)
          = false
       /\ offers (render (ui Sample.settled)) (Refresh false)
       /\ requests (handleRefresh false Sample.settled) =
            requests Sample.settled
            ++ [GetCurrent (Location.lat L) (Location.lng L)]
       /\ fetchCycles (handleRefresh false Sample.settled)
          = S (fetchCycles Sample.settled)
       /\ loading (ui (handleRefresh false Sample.settled)) = true.
Proof.
  pose proof settled_world as (Hrun & _).
  assert (Hp : panel (render (ui Sample.settled)) = Weather Tour.settledPanel)
    by (vm_compute; reflexivity).
  split; [exact Hrun|]. split; [exact Hp|].
  exact (refresh_on_screen_always_fetches (B := ecma) Sample.firstVisit
           Sample.settled Tour.settledPanel Hrun Hp).
Defined.

(** X7 after the refresh that failed: two more clicks on Paris. *)
Lemma failed_view_is_not_retried_witness :
  error (ui Tour.failed) = Some fetchErrorMessage
  /\ fetchErrorMessage <> ""
  /\ locationKeyRef (ui Tour.failed)
     = Some (locationKey (B := ecma) Sample.paris)
  /\ keepsTo (B := ecma) Sample.paris Tour.retries Tour.failed
  /\ run (B := ecma) Tour.retries Tour.failed
     = Some (Sample.worldAfter Tour.retries Tour.failed)
  /\ (fetchCycles (Sample.worldAfter Tour.retries Tour.failed)
      = fetchCycles Tour.failed
      /\ (exists m',
            error (ui (Sample.worldAfter Tour.retries Tour.failed)) = Some m'
            /\ m' <> "")
      /\ (forall b,
            ~ offers (render (ui (Sample.worldAfter Tour.retries Tour.failed)))
                (Refresh b))
      /\ locationKeyRef (ui (Sample.worldAfter Tour.retries Tour.failed))
         = Some (locationKey (B := ecma) Sample.paris)).
Proof.
  assert (He : error (ui Tour.failed) = Some fetchErrorMessage)
    by (vm_compute; reflexivity).
  assert (Hm : fetchErrorMessage <> "") by discriminate.
  assert (Hk : locationKeyRef (ui Tour.failed)
               = Some (locationKey (B := ecma) Sample.paris))
    by (vm_compute; reflexivity).
  assert (Hkeep : keepsTo (B := ecma) Sample.paris Tour.retries Tour.failed).
  { vm_compute. split; [left; reflexivity|].
    split; [left; reflexivity|exact I]. }
  assert (Hr : run (B := ecma) Tour.retries Tour.failed
               = Some (Sample.worldAfter Tour.retries Tour.failed))
    by (vm_compute; reflexivity).
  split; [exact He|]. split; [exact Hm|]. split; [exact Hk|].
  split; [exact Hkeep|]. split; [exact Hr|].
  exact (failed_view_is_not_retried (B := ecma) Sample.paris Tour.retries
           Tour.failed _ fetchErrorMessage He Hm Hk Hkeep Hr).
Defined.

(** X8 on the fresh component: Paris is loading, London is clicked. *)
Lemma overtaken_cycle_shows_under_new_selection_witness :
  wf initialWorld
  /\ sameCoordinates Sample.london Sample.paris = false
  /\ completes NotOk = true
  /\ (let started := fetchWeatherData false Sample.paris initialWorld in
      let moved :=
        handleLocationSelect (B := ecma) (loading (ui started)) Sample.london
          started in
      exists w',
        run (B := ecma)
          (cycleReplies (List.length (requests initialWorld))
             (Json Sample.sunny) (Json Sample.outlook) NotOk Sample.noon)
          moved = Some w'
        /\ selectedLocation (ui w') = Some Sample.london
        /\ locationKeyRef (ui w')
           = Some (locationKey (B := ecma) Sample.london)
        /\ weatherData (ui w') = Some Sample.sunny
        /\ forecastData (ui w') = Some Sample.outlook
        /\ panel (render (ui w'))
           = Weather (weatherPanel (ui w') Sample.sunny Sample.outlook)
        /\ requests moved = requests started
        /\ fetchCycles w' = S (fetchCycles initialWorld)).
Proof.
  assert (Hd : sameCoordinates Sample.london Sample.paris = false)
    by (vm_compute; reflexivity).
  split; [exact wf_initial|]. split; [exact Hd|]. split; [reflexivity|].
  exact (overtaken_cycle_shows_under_new_selection (B := ecma) initialWorld
           Sample.paris Sample.london Sample.sunny Sample.outlook NotOk
           Sample.noon wf_initial Hd eq_refl).
Defined.

(** X9 at a refresh of the settled view: the old weather stays while the
    new cycle loads. *)
Lemma only_replies_write_weather_witness :
  isCycleReply (Refresh false) = false
  /\ step (B := ecma) (Refresh false) Sample.settled
     = Some (Sample.worldAfter [Refresh false] Sample.settled)
  /\ (weatherData (ui (Sample.worldAfter [Refresh false] Sample.settled))
      = weatherData (ui Sample.settled)
      /\ forecastData (ui (Sample.worldAfter [Refresh false] Sample.settled))
         = forecastData (ui Sample.settled)
      /\ alertsData (ui (Sample.worldAfter [Refresh false] Sample.settled))
         = alertsData (ui Sample.settled)
      /\ lastUpdated (ui (Sample.worldAfter [Refresh false] Sample.settled))
         = lastUpdated (ui Sample.settled)).
Proof.
  split; [reflexivity|]. split; [exact refresh_of_settled|].
  exact (only_replies_write_weather (B := ecma) (Refresh false)
           Sample.settled _ eq_refl refresh_of_settled).
Defined.

(** X10 at the end of the first visit. *)
Lemma requests_follow_each_other_witness :
  run (B := ecma) Sample.firstVisit initialWorld = Some Sample.settled
  /\ ((forall a b, In (GetForecast a b) (requests Sample.settled) ->
                   In (GetCurrent a b) (requests Sample.settled))
      /\ (forall a b, In (GetOneCall a b) (requests Sample.settled) ->
                      In (GetForecast a b) (requests Sample.settled))).
Proof.
  pose proof settled_world as (Hrun & _).
  split; [exact Hrun|].
  exact (requests_follow_each_other (B := ecma) Sample.firstVisit
           Sample.settled Hrun).
Defined.

(** X11 at the address of Paris. *)
Lemma firstSegment_of_joined_witness :
  ~ In ","%char (list_ascii_of_string "Paris")
  /\ (firstSegment ("Paris" ++ String "," " Ile-de-France, France")%string
      = "Paris"
      /\ firstSegment "Paris" = "Paris"
      /\ forall lat lon : string,
           Location.name
             (newLocation (B := ecma)
                (Candidate.mk lat lon
                   ("Paris" ++ String "," " Ile-de-France, France")%string))
           = Some "Paris"
           /\ Location.name
                (newLocation (B := ecma) (Candidate.mk lat lon "Paris"))
              = Some "Paris").
Proof.
  assert (Hno : ~ In ","%char (list_ascii_of_string "Paris")).
  { cbn. intros [E|[E|[E|[E|[E|[]]]]]]; discriminate E. }
  split; [exact Hno|].
  exact (firstSegment_of_joined (B := ecma) "Paris" " Ile-de-France, France"
           Hno).
Defined.

(** X12 on the settled view: no list and the empty list. *)
Lemma panel_ignores_empty_alerts_witness :
  truthy (hasAlerts None) = false
  /\ truthy (hasAlerts (Some [])) = false
  /\ (panel (render (ui (setAlertsData None Sample.settled)))
      = panel (render (ui (setAlertsData (Some []) Sample.settled)))
      /\ forall a rest p,
           panel (render (ui (setAlertsData (Some (a :: rest))
                                Sample.settled))) = Weather p ->
           WeatherPanel.banner p = Some (Some (a :: rest))
           /\ Tabs.alertsDisabled (WeatherPanel.tabs p) = false
           /\ panel (render (ui (setAlertsData None Sample.settled)))
              <> Weather p).
Proof.
  split; [reflexivity|]. split; [reflexivity|].
  exact (panel_ignores_empty_alerts Sample.settled None (Some [])
           eq_refl eq_refl).
Defined.

(** X13 at a search for "Paris" that the network rejects. *)
Lemma failed_search_changes_nothing_else_witness :
  lookupTask 0 (pending Sample.searching) = Some (AwaitGeocode false "Paris")
  /\ isJson (@NetworkError (list Candidate)) = false
  /\ exists w',
       step (B := ecma) (GeocodeReply 0 NetworkError) Sample.searching
         = Some w'
       /\ ui w' = ui (setIsSearching false
                        (setSearchError (Some searchFailedMessage)
                           Sample.searching))
       /\ searchErrorText (render (ui w')) = Some searchFailedMessage
       /\ requests w' = requests Sample.searching
       /\ pending w' = removeTask 0 (pending Sample.searching)
       /\ console w' =
            console Sample.searching
            ++ [ConsoleError "Error searching location:"].
Proof.
  split; [reflexivity|]. split; [reflexivity|].
  exact (failed_search_changes_nothing_else (B := ecma) Sample.searching 0
           false "Paris" NetworkError eq_refl eq_refl).
Defined.

(** X15 over the visit in which London was clicked while Paris loaded:
    two clicks, one cycle. *)
Lemma cycles_need_a_trigger_witness :
  run (B := ecma) Tour.overtaken initialWorld
    = Some (Sample.worldAfter Tour.overtaken initialWorld)
  /\ fetchCycles (Sample.worldAfter Tour.overtaken initialWorld)
     <= fetchCycles initialWorld
        + List.length (filter mayFetch Tour.overtaken).
Proof.
  assert (Hr : run (B := ecma) Tour.overtaken initialWorld
               = Some (Sample.worldAfter Tour.overtaken initialWorld))
    by (vm_compute; reflexivity).
  split; [exact Hr|].
  exact (cycles_need_a_trigger (B := ecma) Tour.overtaken initialWorld _ Hr).
Defined.

(** X3 at the render that shows the spinner after a click on Paris. *)
Lemma refresh_while_loading_changes_nothing_witness :
  run (B := ecma) [LocationSelect false Sample.paris] initialWorld
    = Some (Sample.worldAfter [LocationSelect false Sample.paris]
              initialWorld)
  /\ loading (ui (Sample.worldAfter [LocationSelect false Sample.paris]
                    initialWorld)) = true
  /\ handleRefresh
       (loading (ui (Sample.worldAfter [LocationSelect false Sample.paris]
                       initialWorld)))
       (Sample.worldAfter [LocationSelect false Sample.paris] initialWorld)
     = Sample.worldAfter [LocationSelect false Sample.paris] initialWorld.
Proof.
  assert (Hr : run (B := ecma) [LocationSelect false Sample.paris]
                 initialWorld
               = Some (Sample.worldAfter [LocationSelect false Sample.paris]
                         initialWorld))
    by (vm_compute; reflexivity).
  assert (Hl : loading (ui (Sample.worldAfter
                              [LocationSelect false Sample.paris]
                              initialWorld)) = true)
    by (vm_compute; reflexivity).
  split; [exact Hr|]. split; [exact Hl|].
  exact (refresh_while_loading_changes_nothing (B := ecma)
           [LocationSelect false Sample.paris] _ Hr Hl).
Defined.

(** X17 at the search for "Paris" that waits for its answer. *)
Lemma search_indicator_is_awaited_witness :
  run (B := ecma) [Search false "Paris"] initialWorld
    = Some (Sample.worldAfter [Search false "Paris"] initialWorld)
  /\ ((isSearching (ui (Sample.worldAfter [Search false "Paris"]
                          initialWorld)) = true ->
       0 < searchesAwaited (Sample.worldAfter [Search false "Paris"]
                              initialWorld))
      /\ forall n r w',
           step (B := ecma) (GeocodeReply n r)
             (Sample.worldAfter [Search false "Paris"] initialWorld)
           = Some w' ->
           isSearching (ui w') = false
           /\ S (searchesAwaited w')
              = searchesAwaited (Sample.worldAfter [Search false "Paris"]
                                   initialWorld)).
Proof.
  assert (Hr : run (B := ecma) [Search false "Paris"] initialWorld
               = Some (Sample.worldAfter [Search false "Paris"]
                         initialWorld))
    by (vm_compute; reflexivity).
  split; [exact Hr|].
  exact (search_indicator_is_awaited (B := ecma) [Search false "Paris"] _ Hr).
Defined.
